(** * GraphStorm / WholeGraph integration: a shallow embedding

    This development models [python/graphstorm/wholegraph/wholegraph.py]:
    the resharder [wholegraph_processing], the feature-file trimmer
    [trim_feat_files], the two conversion paths of
    [convert_feat_to_wholegraph], the loader [load_wg_feat] and the
    distributed tensor handle [WholeGraphDistTensor].

    Python integers are [Z]; Python lists and tuples are [list]; a [dict]
    whose iteration order is observable is an association list, other
    dictionaries and the file system are [gmap]s.  Exceptions are values of
    [exn]; a statement that may raise after having mutated shared objects is
    a state transformer returning the mutated state together with either the
    exception or the result. *)

From stdpp Require Import base option list strings gmap pretty.
From Stdlib Require Import ZArith Lia Ascii Sorted.

Local Open Scope Z_scope.

(** ** Python values and exceptions *)

Module Py.

(** Payload of the [RuntimeError]s raised by the module.  The message of
    lines 187-190 and 219-222 interpolates the feature key and the
    [dict.keys()] view; it is kept structured rather than rendered. *)
Inductive runtime_msg : Type :=
  | UnknownFeature (feat : string) (keys : list string)
  | OptimizerAlreadyExists.

Inductive exn : Type :=
  | IndexError
  | KeyError (key : string)
  | KeyErrorInt (key : Z)
  | NameError (name : string)
  | UnboundLocalError (name : string)
  | ZeroDivisionError
  | ValueError
  | AssertionError (msg : string)
  | RuntimeError (msg : runtime_msg)
  | ImportError (msg : string)
  | AttributeError (name : string)
  | FileNotFoundError (path : string)
  | ServiceError (what : string).

Inductive result (A : Type) : Type :=
  | Ok (a : A)
  | Raise (e : exn).
Arguments Ok {A} a.
Arguments Raise {A} e.

Definition is_ok {A} (r : result A) : bool :=
  match r with Ok _ => true | Raise _ => false end.

Definition bindR {A B} (r : result A) (k : A → result B) : result B :=
  match r with Ok a => k a | Raise e => Raise e end.

(** A loop over a list whose body may raise. *)
Fixpoint mapR {A B} (f : A → result B) (l : list A) : result (list B) :=
  match l with
  | [] => Ok []
  | x :: l' =>
      bindR (f x) (λ y, bindR (mapR f l') (λ ys, Ok (y :: ys)))
  end.

(** [range(n)] *)
Definition range (n : Z) : list Z := Z.of_nat <$> seq 0 (Z.to_nat n).

(** [a // b]: floor division, [ZeroDivisionError] on a zero divisor.
    [Z.div] rounds towards minus infinity for both signs of the divisor,
    as Python does. *)
Definition floordiv (a b : Z) : result Z :=
  if b =? 0 then Raise ZeroDivisionError else Ok (a / b).

(** Normalisation of a slice bound against a sequence of length [len]. *)
Definition slice_bound (len i : Z) : Z :=
  if i <? 0 then Z.max 0 (i + len) else Z.min i len.

(** [l[a:b]] *)
Definition slice {A} (l : list A) (a b : Z) : list A :=
  let len := Z.of_nat (length l) in
  let a' := slice_bound len a in
  let b' := slice_bound len b in
  take (Z.to_nat (b' - a')) (drop (Z.to_nat a') l).

(** [l[i]] on a list or tuple, negative indices counting from the end. *)
Definition list_get {A} (l : list A) (i : Z) : result A :=
  let len := Z.of_nat (length l) in
  let j := if i <? 0 then i + len else i in
  if (j <? 0) || (len <=? j) then Raise IndexError
  else match l !! Z.to_nat j with
       | Some x => Ok x
       | None => Raise IndexError
       end.

(** [str(i)] for an integer, as interpolated by an f-string. *)
Definition str_int (i : Z) : string := pretty i.

(** *** Strings *)

(** [s.replace(c, d)] for one-character [c] and [d]. *)
Fixpoint replace_char (c d : ascii) (s : string) : string :=
  match s with
  | EmptyString => EmptyString
  | String a s' =>
      String (if Ascii.eqb a c then d else a) (replace_char c d s')
  end.

Definition starts_with_slash (s : string) : bool :=
  match s with
  | String a _ => Ascii.eqb a "/"
  | EmptyString => false
  end.

Fixpoint ends_with_slash (s : string) : bool :=
  match s with
  | EmptyString => false
  | String a EmptyString => Ascii.eqb a "/"
  | String _ s' => ends_with_slash s'
  end.

(** [s.split(sep)] for a non-empty separator: the pieces between the
    non-overlapping occurrences of [sep], scanned from the left.  [skip]
    counts the characters of a matched separator still to be dropped and
    [piece] holds the current piece in reverse. *)
Fixpoint split_go (sep s : string) (skip : nat) (piece : list ascii)
  : list string :=
  match s with
  | EmptyString => [String.string_of_list_ascii (rev piece)]
  | String a s' =>
      match skip with
      | S k => split_go sep s' k piece
      | O =>
          if String.prefix sep s
          then String.string_of_list_ascii (rev piece)
                 :: split_go sep s' (String.length sep - 1) []
          else split_go sep s' O (a :: piece)
      end
  end.

Definition split (s sep : string) : list string := split_go sep s O [].

Definition is_digit (a : ascii) : bool :=
  let n := nat_of_ascii a in (48 <=? n)%nat && (n <=? 57)%nat.

Fixpoint all_digits (s : string) : bool :=
  match s with
  | EmptyString => true
  | String a s' => is_digit a && all_digits s'
  end.

Fixpoint digits_value (acc : Z) (s : string) : Z :=
  match s with
  | EmptyString => acc
  | String a s' =>
      digits_value (10 * acc + (Z.of_nat (nat_of_ascii a) - 48)) s'
  end.

Definition newline : ascii := ascii_of_nat 10.

(** The digits of [s] once one final newline, if any, is dropped. *)
Fixpoint drop_final_newline (s : string) : string :=
  match s with
  | EmptyString => EmptyString
  | String a EmptyString =>
      if Ascii.eqb a newline then EmptyString else s
  | String a s' => String a (drop_final_newline s')
  end.

(** [int(s)] on the strings it is applied to here: decimal digits,
    possibly followed by one newline (white space is stripped by [int]);
    [ValueError] otherwise. *)
Definition int_of_str (s : string) : result Z :=
  let d := drop_final_newline s in
  if all_digits d && negb (String.eqb d EmptyString)
  then Ok (digits_value 0 d)
  else Raise ValueError.

(** *** [os.path] on POSIX *)

(** [os.path.join(a, b)] *)
Definition path_join (a b : string) : string :=
  if starts_with_slash b then b
  else if String.eqb a EmptyString || ends_with_slash a then a +:+ b
  else a +:+ "/" +:+ b.

Fixpoint strip_trailing_slashes_rev (r : list ascii) : list ascii :=
  match r with
  | a :: r' => if Ascii.eqb a "/" then strip_trailing_slashes_rev r' else r
  | [] => []
  end.

Fixpoint drop_until_slash_rev (r : list ascii) : list ascii :=
  match r with
  | a :: r' => if Ascii.eqb a "/" then r else drop_until_slash_rev r'
  | [] => []
  end.

(** [os.path.dirname(p)]: the part up to the last slash, without its
    trailing slashes unless it consists of slashes only. *)
Definition dirname (p : string) : string :=
  let head := drop_until_slash_rev (rev (String.list_ascii_of_string p)) in
  match strip_trailing_slashes_rev head with
  | [] => String.string_of_list_ascii (rev head)
  | stripped => String.string_of_list_ascii (rev stripped)
  end.

(** *** Dictionaries with observable key order *)

(** A [dict] with string keys, as the list of its items in insertion
    order; the keys of a Python dictionary are pairwise distinct. *)
Abbreviation dict V := (list (string * V)).

Section dict.
Context {V : Type}.

(** [d.keys()] *)
Definition dict_keys (d : dict V) : list string := d.*1.

(** [k in d] *)
Definition dict_mem (k : string) (d : dict V) : bool :=
  bool_decide (k ∈ dict_keys d).

Fixpoint dict_find (k : string) (d : dict V) : option V :=
  match d with
  | [] => None
  | (k', v) :: d' => if String.eqb k k' then Some v else dict_find k d'
  end.

(** [d[k]] *)
Definition dict_get (d : dict V) (k : string) : result V :=
  match dict_find k d with
  | Some v => Ok v
  | None => Raise (KeyError k)
  end.

Definition dict_remove (k : string) (d : dict V) : dict V :=
  filter (λ kv, kv.1 ≠ k) d.

(** [del d[k]] *)
Definition dict_del (d : dict V) (k : string) : result (dict V) :=
  if dict_mem k d then Ok (dict_remove k d) else Raise (KeyError k).

End dict.

End Py.

Import Py.

Notation "'letR' x := m 'in' k" := (bindR m (λ x, k))
  (at level 10, x name, m at level 99, k at level 200, only parsing).

(** ** The resharder's row ranges (lines 96-102) *)

(** [subpart_size = -(rows // -num_parts)] for a non-zero [num_parts]. *)
Definition subpart_size (rows num_parts : Z) : Z := - (rows / - num_parts).

(** [st] and [end] of the loop body for shard [part_num]. *)
Definition shard_range (rows num_parts size part_num : Z) : Z * Z :=
  let st := part_num * size in
  let end_ := if negb (part_num =? num_parts - 1)
              then (part_num + 1) * size
              else rows in
  (st, end_).

(** The ranges of one run of the loop, in iteration order. *)
Definition shard_ranges (rows num_parts : Z) : list (Z * Z) :=
  shard_range rows num_parts (subpart_size rows num_parts) <$> range num_parts.

Definition range_len (r : Z * Z) : Z := r.2 - r.1.



(** ** Statements that mutate a state and may raise

    The state reached when an exception is raised is kept: Python does not
    undo the assignments made before the [raise]. *)

Definition ST (S A : Type) : Type := S → S * result A.

Definition retM {S A} (a : A) : ST S A := λ s, (s, Ok a).

Definition bindM {S A B} (m : ST S A) (k : A → ST S B) : ST S B :=
  λ s, match m s with
       | (s', Ok a) => k a s'
       | (s', Raise e) => (s', Raise e)
       end.

Definition liftR {S A} (r : result A) : ST S A := λ s, (s, r).

(** A [for] loop over [l] whose body may raise. *)
Fixpoint for_each {S A} (l : list A) (body : A → ST S unit) : ST S unit :=
  match l with
  | [] => retM tt
  | x :: l' => bindM (body x) (λ _, for_each l' body)
  end.

(** A [for] loop threading local variables of type [L]. *)
Fixpoint for_fold {S A L} (l : list A) (body : L → A → ST S L) (v : L)
  : ST S L :=
  match l with
  | [] => retM v
  | x :: l' => bindM (body v x) (for_fold l' body)
  end.

Notation "'letM' x := m 'in' k" := (bindM m (λ x, k))
  (at level 10, x name, m at level 99, k at level 200, only parsing).
Notation "m ;;; k" := (bindM m (λ _, k))
  (at level 100, k at level 200, right associativity, only parsing).

(** ** The external collaborators

    PyTorch tensors, the WholeGraph (pylibwholegraph) service and DGL's
    tensor files are outside the module.  Their operations are the fields
    of [External]; each returns [Raise] where the library call raises.  A
    call is a function of its arguments: two runs that issue the same call
    get the same answer. *)

Class External : Type := {
  Tensor : Type;
  DType : Type;
  Comm : Type;
  WGTensor : Type;
  Shard : Type;
  (** [t.shape], [t.dtype], [str(dtype)] *)
  tensor_shape : Tensor → list Z;
  tensor_dtype : Tensor → DType;
  dtype_str : DType → string;
  (** [th.concat(ts, dim=0)] *)
  th_concat : list Tensor → result Tensor;
  (** [t[st:end]] *)
  tensor_slice : Tensor → Z → Z → Tensor;
  (** [wgth.comm.get_local_device_communicator()] *)
  get_local_device_communicator : result Comm;
  (** [wgth.create_wholememory_tensor(comm, "continuous", "cpu", shape,
      dtype, None)] *)
  create_wholememory_tensor : Comm → list Z → DType → result WGTensor;
  (** [wg_tensor.get_local_tensor(host_view=True)] followed by
      [local_tensor.copy_(src)] *)
  local_tensor_copy_ : WGTensor → Tensor → result WGTensor;
  (** [wg_tensor.local_to_file(path)]: the bytes written at [path] *)
  local_to_file : WGTensor → string → result Shard;
  (** [wgth.destroy_wholememory_tensor(wg_tensor)] *)
  destroy_wholememory_tensor : WGTensor → result unit;
  (** [wgth.utils.get_part_file_name(prefix, part, count)] *)
  get_part_file_name : string → Z → Z → string
}.

(** ** The conversion state *)

(** One entry of the [metadata] dictionary. *)
Record Meta : Type := { meta_shape : list Z; meta_dtype : string }.

(** One completed [local_to_file] call of [wholegraph_processing]. *)
Record ShardWrite : Type := {
  sw_feat : string;
  sw_part : Z;
  sw_range : Z * Z;
  sw_path : string
}.

Section Conversion.
Context `{Ext : External}.

(** What a conversion reads and mutates: the caller's [metadata]
    dictionary, the files under the [wholegraph] folder, the feature files
    of the partition directories (both keyed by path), and the log of the
    shard writes performed so far. *)
Record World : Type := {
  metadata : gmap string Meta;
  wg_files : gmap string Shard;
  part_fs : gmap string (dict Tensor);
  shard_log : list ShardWrite
}.

Definition M (A : Type) : Type := ST World A.

Definition set_metadata (feat : string) (m : Meta) : M unit :=
  λ w, ({| metadata := <[feat := m]> (metadata w);
           wg_files := wg_files w;
           part_fs := part_fs w;
           shard_log := shard_log w |}, Ok tt).

Definition put_shard (sw : ShardWrite) (content : Shard) : M unit :=
  λ w, ({| metadata := metadata w;
           wg_files := <[sw_path sw := content]> (wg_files w);
           part_fs := part_fs w;
           shard_log := shard_log w ++ [sw] |}, Ok tt).

(** [dgl.data.utils.load_tensors(path)] *)
Definition load_tensors (path : string) : M (dict Tensor) :=
  λ w, (w, match part_fs w !! path with
           | Some d => Ok d
           | None => Raise (FileNotFoundError path)
           end).

(** [dgl.data.utils.save_tensors(path, d)] into a directory that is
    there.  The state has files and no directories: the module creates and
    removes none, and a call whose directory is missing, on which DGL
    raises, is outside the model. *)
Definition save_tensors (path : string) (d : dict Tensor) : M unit :=
  λ w, ({| metadata := metadata w;
           wg_files := wg_files w;
           part_fs := <[path := d]> (part_fs w);
           shard_log := shard_log w |}, Ok tt).

(** [os.rename(src, dst)] between files on POSIX: [dst] is replaced
    silently when it exists; a missing [src] raises. *)
Definition os_rename (src dst : string) : M unit :=
  λ w, match part_fs w !! src with
       | None => (w, Raise (FileNotFoundError src))
       | Some d =>
           ({| metadata := metadata w;
               wg_files := wg_files w;
               part_fs := <[dst := d]> (delete src (part_fs w));
               shard_log := shard_log w |}, Ok tt)
       end.

End Conversion.

Section Resharder.
Context `{Ext : External}.

(** *** [wholegraph_processing] (lines 72-118) *)

(** Lines 99-117 of the loop body for shard [part_num], up to and
    including [local_to_file]: the record of the write, the bytes written
    and the service tensor still to be destroyed. *)
Definition shard_to_file (whole_feat_tensor : Tensor)
    (feat wg_folder : string) (num_parts : Z) (local_comm : Comm)
    (rows subpart_size part_num : Z)
  : result (ShardWrite * Shard * WGTensor) :=
  let '(st, end_) := shard_range rows num_parts subpart_size part_num in
  letR wg_tensor :=
    create_wholememory_tensor local_comm
      ((end_ - st) :: tail (tensor_shape whole_feat_tensor))
      (tensor_dtype whole_feat_tensor) in
  letR wg_tensor :=
    local_tensor_copy_ wg_tensor (tensor_slice whole_feat_tensor st end_) in
  let filename :=
    get_part_file_name (replace_char "/" "~" feat) part_num num_parts in
  let path := path_join wg_folder filename in
  letR content := local_to_file wg_tensor path in
  Ok ({| sw_feat := feat; sw_part := part_num;
         sw_range := (st, end_); sw_path := path |}, content, wg_tensor).

(** The body of the loop of line 98: the file is on disk before
    [destroy_wholememory_tensor] is called. *)
Definition write_shard (whole_feat_tensor : Tensor) (feat wg_folder : string)
    (num_parts : Z) (local_comm : Comm) (rows subpart_size part_num : Z)
  : M unit :=
  letM x := liftR (shard_to_file whole_feat_tensor feat wg_folder num_parts
                     local_comm rows subpart_size part_num) in
  put_shard x.1.1 x.1.2 ;;;
  liftR (destroy_wholememory_tensor x.2).

Definition wholegraph_processing (whole_feat_tensor : Tensor)
    (feat wg_folder : string) (num_parts : Z) : M unit :=
  set_metadata feat
    {| meta_shape := tensor_shape whole_feat_tensor;
       meta_dtype := dtype_str (tensor_dtype whole_feat_tensor) |} ;;;
  letM local_comm := liftR get_local_device_communicator in
  letM rows := liftR (list_get (tensor_shape whole_feat_tensor) 0) in
  letM q := liftR (floordiv rows (- num_parts)) in
  let subpart_size := - q in
  for_each (range num_parts)
    (write_shard whole_feat_tensor feat wg_folder num_parts local_comm
       rows subpart_size).

(** *** [trim_feat_files] (lines 121-145) *)

(** The first argument is a list of per-partition dictionaries in the
    high-memory path and one partition's dictionary in the low-memory
    path. *)
Inductive PyFeats : Type :=
  | FeatList (l : list (dict Tensor))
  | FeatDict (d : dict Tensor).

(** [trimmed_feats[part]] for an integer [part].  The keys of a loaded
    feature dictionary are strings, so an integer is never one of them. *)
Definition subscript_int (trimmed_feats : PyFeats) (part : Z)
  : result (dict Tensor) :=
  match trimmed_feats with
  | FeatList l => list_get l part
  | FeatDict _ => Raise (KeyErrorInt part)
  end.

Definition part_dir (folder : string) (part : Z) : string :=
  path_join folder ("part" +:+ str_int part).

Definition trim_feat_files (trimmed_feats : PyFeats)
    (folder file_name : string) (part : Z) : M unit :=
  letM d := liftR (subscript_int trimmed_feats part) in
  save_tensors (path_join (part_dir folder part) ("new_" +:+ file_name)) d ;;;
  os_rename (path_join (part_dir folder part) file_name)
            (path_join (part_dir folder part) (file_name +:+ ".bak")) ;;;
  os_rename (path_join (part_dir folder part) ("new_" +:+ file_name))
            (path_join (part_dir folder part) file_name).

End Resharder.

(** ** [convert_feat_to_wholegraph] (lines 148-246) *)

Section Convert.
Context `{Ext : External}.

(** [folder_pattern.match(f)] for [^part[0-9]+$]: [$] also matches just
    before a final newline. *)
Definition folder_pattern_match (f : string) : bool :=
  match f with
  | String "p" (String "a" (String "r" (String "t" rest))) =>
      let d := drop_final_newline rest in
      all_digits d && negb (String.eqb d EmptyString)
  | _ => false
  end.

(** The sort key of line 171: [int(x.split("part")[1])]. *)
Definition part_sort_key (x : string) : result Z :=
  letR piece := list_get (split x "part") 1 in
  int_of_str piece.

(** Insertion by key; entries are inserted from the last to the first, so
    equal keys keep their order, as with [sorted]. *)
Fixpoint insert_by_key (kx : Z * string) (l : list (Z * string))
  : list (Z * string) :=
  match l with
  | [] => [kx]
  | ky :: l' =>
      if kx.1 <=? ky.1 then kx :: l else ky :: insert_by_key kx l'
  end.

Definition sort_by_key (l : list (Z * string)) : list (Z * string) :=
  foldr insert_by_key [] l.

(** Lines 166-171.  [listing] is [os.listdir(folder)], each entry with the
    answer of [os.path.isdir]. *)
Definition part_files (listing : list (string * bool)) : result (list string) :=
  let dirs :=
    (filter (λ e : string * bool, e.2 && folder_pattern_match e.1 = true)
            listing).*1 in
  letR keyed := mapR (λ x, letR k := part_sort_key x in Ok (k, x)) dirs in
  Ok (sort_by_key keyed).*2.

(** The feature keys in the order the nested loops over
    [fname_dict.items()] and the feature names visit them:
    [type_name + "/" + feat]. *)
Definition requested_keys (fname_dict : dict (list string)) : list string :=
  concat ((λ tf : string * list string,
             (λ feat, tf.1 +:+ "/" +:+ feat) <$> tf.2) <$> fname_dict).

(** [f"{path}/{file_name}"] for [path = os.path.join(folder, name)]. *)
Definition feat_file_path (folder file_name name : string) : string :=
  path_join folder name +:+ "/" +:+ file_name.

(** *** The high-memory path (lines 178-203) *)

(** Lines 185-200 for one feature key; [feats_data] is the loop's view of
    the loaded partitions. *)
Definition convert_feature_high (wg_folder : string) (num_parts : Z)
    (feats_data : list (dict Tensor)) (feat : string)
  : M (list (dict Tensor)) :=
  letM first := liftR (list_get feats_data 0) in
  if negb (dict_mem feat first)
  then liftR (Raise (RuntimeError (UnknownFeature feat (dict_keys first))))
  else
    letM ts := liftR (mapR (λ t, dict_get t feat) feats_data) in
    letM whole_feat_tensor := liftR (th_concat ts) in
    letM feats_data' := liftR (mapR (λ t, dict_del t feat) feats_data) in
    wholegraph_processing whole_feat_tensor feat wg_folder num_parts ;;;
    retM feats_data'.

Definition convert_high (fname_dict : dict (list string))
    (file_name folder : string) (part_files : list string) : M unit :=
  let wg_folder := path_join folder "wholegraph" in
  letM feats_data :=
    for_fold part_files
      (λ acc name,
         letM d := load_tensors (feat_file_path folder file_name name) in
         retM (acc ++ [d]))
      [] in
  let num_parts := Z.of_nat (length feats_data) in
  letM feats_data :=
    for_fold (requested_keys fname_dict)
      (convert_feature_high wg_folder num_parts) feats_data in
  for_each (range num_parts)
    (trim_feat_files (FeatList feats_data) folder file_name).

(** *** The low-memory path (lines 209-246) *)

(** Lines 217-227 for one partition; the loop variables are
    [node_feats_data] and [num_parts]. *)
Definition read_feature_low (folder file_name feat : string)
    (st : option Tensor * Z) (name : string) : M (option Tensor * Z) :=
  letM nfeat := load_tensors (feat_file_path folder file_name name) in
  if negb (dict_mem feat nfeat)
  then liftR (Raise (RuntimeError (UnknownFeature feat (dict_keys nfeat))))
  else
    letM t := liftR (dict_get nfeat feat) in
    letM acc := match st.1 with
                | None => retM t
                | Some node_feats_data =>
                    liftR (th_concat [node_feats_data; t])
                end in
    retM (Some acc, st.2 + 1).

(** Lines 212-236 for one feature key.  [del nfeat] raises when the loop
    over the partitions has not bound [nfeat]. *)
Definition convert_feature_low (wg_folder folder file_name : string)
    (part_files : list string) (feat : string) : M unit :=
  letM st := for_fold part_files (read_feature_low folder file_name feat)
               (None, 0) in
  match st.1 with
  | None => liftR (Raise (UnboundLocalError "nfeat"))
  | Some node_feats_data =>
      wholegraph_processing node_feats_data feat wg_folder st.2
  end.

(** Lines 239-246 for one partition; the loop variable is [num_parts]. *)
Definition trim_partition_low (fname_dict : dict (list string))
    (folder file_name : string) (num_parts : Z) (name : string) : M Z :=
  letM feats_data := load_tensors (feat_file_path folder file_name name) in
  letM feats_data :=
    for_fold (requested_keys fname_dict)
      (λ d feat, liftR (dict_del d feat)) feats_data in
  let num_parts := num_parts + 1 in
  trim_feat_files (FeatDict feats_data) folder file_name num_parts ;;;
  retM num_parts.

Definition convert_low (fname_dict : dict (list string))
    (file_name folder : string) (part_files : list string) : M unit :=
  let wg_folder := path_join folder "wholegraph" in
  for_each (requested_keys fname_dict)
    (convert_feature_low wg_folder folder file_name part_files) ;;;
  letM _n := for_fold part_files
               (trim_partition_low fname_dict folder file_name) 0 in
  retM tt.

Definition convert_feat_to_wholegraph (fname_dict : dict (list string))
    (file_name folder : string) (use_low_mem : bool)
    (listing : list (string * bool)) : M unit :=
  letM part_files := liftR (part_files listing) in
  if negb use_low_mem
  then convert_high fname_dict file_name folder part_files
  else convert_low fname_dict file_name folder part_files.

End Convert.

(** ** The embedding service *)

(** The part of pylibwholegraph and PyTorch used by [load_wg_feat] and
    [WholeGraphDistTensor].  [WGStore] is the state of the distributed
    store and [Emb] the type of the embeddings it holds. *)
Class EmbedService `{Ext : External} : Type := {
  Emb : Type;
  Optimizer : Type;
  EmbModule : Type;
  CachePolicy : Type;
  GlobalComm : Type;
  WGStore : Type;
  (** [pylibwholegraph.__version__] *)
  wg_version : string;
  (** [wgth.WholeMemoryEmbeddingModule(emb)] *)
  WholeMemoryEmbeddingModule : Emb → result EmbModule;
  (** [t.cuda()], [t.to(dtype)], [d1 != d2] *)
  tensor_cuda : Tensor → result Tensor;
  tensor_to : Tensor → DType → result Tensor;
  dtype_neq : DType → DType → bool;
  (** [emb.gather(idx)] *)
  emb_gather : Emb → Tensor → ST WGStore Tensor;
  (** [emb.get_embedding_tensor().scatter(val, idx)] *)
  emb_scatter : Emb → Tensor → Tensor → ST WGStore unit;
  (** [emb.get_embedding_tensor().to_file_prefix(prefix)] *)
  to_file_prefix : Emb → string → ST WGStore unit;
  (** [emb.get_embedding_tensor().from_file_prefix(prefix, part_count)] *)
  from_file_prefix : Emb → string → Z → ST WGStore unit;
  (** [wgth.comm.get_global_communicator()] *)
  get_global_communicator : result GlobalComm;
  (** [wgth.create_builtin_cache_policy("none", "distributed", "cpu",
      "readonly", 0.0)] *)
  create_builtin_cache_policy : result CachePolicy;
  (** [getattr(th, name)] *)
  th_getattr : string → result DType;
  (** [wgth.create_embedding(comm, "distributed", "cpu", dtype, shape,
      optimizer=None, cache_policy=policy)] *)
  create_embedding :
    GlobalComm → DType → list Z → CachePolicy → ST WGStore Emb
}.

(** ** [load_wg_feat] (lines 249-294) *)

Section Loader.
Context `{Ext : External} `{Svc : !EmbedService}.

(** Line 286: [[data_shape[0], 1] if len(data_shape) == 1 else data_shape] *)
Definition embedding_shape (data_shape : list Z) : result (list Z) :=
  if (length data_shape =? 1)%nat
  then letR n := list_get data_shape 0 in Ok [n; 1]
  else Ok data_shape.

(** [wholegraph_init] is the module's [WHOLEGRAPH_INIT] flag and
    [json_files] maps a path to the dictionary [json.load] reads there. *)
Definition load_wg_feat (wholegraph_init : bool)
    (json_files : gmap string (gmap string Meta))
    (part_config_path : string) (num_parts : Z) (type_name name : string)
  : ST WGStore Emb :=
  if negb wholegraph_init
  then liftR (Raise (ImportError "WholeGraph is not initialized yet."))
  else
    letM global_comm := liftR get_global_communicator in
    letM cache_policy := liftR create_builtin_cache_policy in
    let metadata_file :=
      path_join (dirname part_config_path) "wholegraph/metadata.json" in
    letM wg_metadata :=
      liftR (match json_files !! metadata_file with
             | Some m => Ok m
             | None => Raise (FileNotFoundError metadata_file)
             end) in
    let key := type_name +:+ "/" +:+ name in
    letM entry :=
      liftR (match wg_metadata !! key with
             | Some e => Ok e
             | None => Raise (KeyError key)
             end) in
    let data_shape := meta_shape entry in
    letM dtype_name := liftR (list_get (split (meta_dtype entry) ".") 1) in
    letM dtype := liftR (th_getattr dtype_name) in
    letM shape := liftR (embedding_shape data_shape) in
    letM feat_wm_embedding :=
      create_embedding global_comm dtype shape cache_policy in
    let feat_path :=
      path_join (path_join (dirname part_config_path) "wholegraph")
                (type_name +:+ "~" +:+ name) in
    from_file_prefix feat_wm_embedding feat_path num_parts ;;;
    retM feat_wm_embedding.

End Loader.

(** ** [WholeGraphDistTensor] (lines 372-598) *)

Section Handle.
Context `{Ext : External} `{Svc : !EmbedService}.

Record WholeGraphDistTensor : Type := {
  _nnodes : Z;
  _embedding_dim : Z;
  _name : string;
  _dtype : DType;
  _location : string;
  _use_wg_optimizer : bool;
  _tensor : option Emb;
  _module : option EmbModule;
  _optimizer : option Optimizer
}.

Definition with_optimizer (self : WholeGraphDistTensor) (o : option Optimizer)
  : WholeGraphDistTensor :=
  {| _nnodes := _nnodes self; _embedding_dim := _embedding_dim self;
     _name := _name self; _dtype := _dtype self;
     _location := _location self;
     _use_wg_optimizer := _use_wg_optimizer self;
     _tensor := _tensor self; _module := _module self; _optimizer := o |}.

Definition with_tensor (self : WholeGraphDistTensor) (t : option Emb)
  : WholeGraphDistTensor :=
  {| _nnodes := _nnodes self; _embedding_dim := _embedding_dim self;
     _name := _name self; _dtype := _dtype self;
     _location := _location self;
     _use_wg_optimizer := _use_wg_optimizer self;
     _tensor := t; _module := _module self;
     _optimizer := _optimizer self |}.

Definition with_module (self : WholeGraphDistTensor) (m : option EmbModule)
  : WholeGraphDistTensor :=
  {| _nnodes := _nnodes self; _embedding_dim := _embedding_dim self;
     _name := _name self; _dtype := _dtype self;
     _location := _location self;
     _use_wg_optimizer := _use_wg_optimizer self;
     _tensor := _tensor self; _module := m;
     _optimizer := _optimizer self |}.

(** The names that lines 415 and 430 read without binding them:
    [create_wg_dist_tensor], which both lines call, and [shape], [dtype]
    and [location], which line 430 passes to it.  None is a parameter or a
    local of [attach_wg_optimizer], and [__init__] binds no
    [create_wg_dist_tensor]: Python looks them up among the module-level
    names, and raises [NameError] for a name it does not find there.
    [Globals] holds what the module binds them to. *)
Record Globals : Type := {
  g_create_wg_dist_tensor :
    option (list Z → DType → string → option Optimizer → ST WGStore Emb);
  g_shape : option (list Z);
  g_dtype : option DType;
  g_location : option string
}.

(** The file defines and imports none of the four names. *)
Definition module_globals : Globals :=
  {| g_create_wg_dist_tensor := None;
     g_shape := None; g_dtype := None; g_location := None |}.

Definition read_global {A} (name : string) (v : option A) : result A :=
  match v with Some a => Ok a | None => Raise (NameError name) end.

(** [__init__] (lines 388-415) under the module-level bindings [G].  The
    object exists only when the constructor returns. *)
Definition __init__ (G : Globals) (shape : list Z) (dtype : DType)
    (name location : string) (use_wg_optimizer : bool)
  : ST WGStore WholeGraphDistTensor :=
  letM nnodes := liftR (list_get shape 0) in
  letM embedding_dim := liftR (list_get shape 1) in
  if negb (String.leb "23.12.00" wg_version)
  then liftR (Raise (AssertionError
                "Please upgrade to the latest version of WholeGraph."))
  else
    let self :=
      {| _nnodes := nnodes; _embedding_dim := embedding_dim; _name := name;
         _dtype := dtype; _location := location;
         _use_wg_optimizer := use_wg_optimizer;
         _tensor := None; _module := None; _optimizer := None |} in
    if use_wg_optimizer
    then retM self
    else
      letM create_wg_dist_tensor :=
        liftR (read_global "create_wg_dist_tensor"
                 (g_create_wg_dist_tensor G)) in
      letM t := create_wg_dist_tensor shape dtype location None in
      retM (with_tensor self (Some t)).

(** A method runs on the object and the store. *)
Definition Method (A : Type) : Type :=
  ST (WholeGraphDistTensor * WGStore) A.

Definition on_store {A} (m : ST WGStore A) : Method A :=
  λ s, match m s.2 with (σ', r) => ((s.1, σ'), r) end.

Definition get_self : Method WholeGraphDistTensor := λ s, (s, Ok s.1).

Definition set_self (f : WholeGraphDistTensor → WholeGraphDistTensor)
  : Method unit := λ s, ((f s.1, s.2), Ok tt).

Definition py_assert {S} (b : bool) (msg : string) : ST S unit :=
  if b then retM tt else liftR (Raise (AssertionError msg)).

(** [x is None] *)
Definition is_none {A} (o : option A) : bool :=
  match o with None => true | Some _ => false end.

(** [attach_wg_optimizer] (lines 418-433) under the module-level bindings
    [G].  The assignments are made one after the other: an exception on
    line 430 or 431 leaves the earlier ones in place.  On line 430 the
    callee is looked up before its arguments. *)
Definition attach_wg_optimizer (G : Globals) (wg_optimizer : Optimizer)
  : Method unit :=
  letM self := get_self in
  py_assert (_use_wg_optimizer self)
    "Please create WholeGraphDistTensor tensor with attach_optimizer=True." ;;;
  if is_none (_optimizer self)
  then
    py_assert (is_none (_tensor self))
      "Please create optimizer before creating WholeGraph tensor." ;;;
    py_assert (is_none (_module self))
      "Please create optimizer before creating WholeGraph embedding module." ;;;
    set_self (λ self, with_optimizer self (Some wg_optimizer)) ;;;
    letM create_wg_dist_tensor :=
      liftR (read_global "create_wg_dist_tensor"
               (g_create_wg_dist_tensor G)) in
    letM shape := liftR (read_global "shape" (g_shape G)) in
    letM dtype := liftR (read_global "dtype" (g_dtype G)) in
    letM location := liftR (read_global "location" (g_location G)) in
    letM t := on_store (create_wg_dist_tensor shape dtype location
                          (Some wg_optimizer)) in
    set_self (λ self, with_tensor self (Some t)) ;;;
    letM m := liftR (WholeMemoryEmbeddingModule t) in
    set_self (λ self, with_module self (Some m))
  else liftR (Raise (RuntimeError OptimizerAlreadyExists)).

(** [save_to_file] (lines 435-456) *)
Definition save_to_file (path file_prefix : string) : Method unit :=
  letM self := get_self in
  match _tensor self with
  | None => liftR (Raise (AssertionError
                     "Please create WholeGraph tensor first."))
  | Some t => on_store (to_file_prefix t (path_join path file_prefix))
  end.

(** [load_from_file] (lines 458-487) is left out: lines 482-483 of its
    body are prose, not statements. *)

(** [__setitem__] (lines 489-507) *)
Definition __setitem__ (idx val : Tensor) : Method unit :=
  letM self := get_self in
  match _tensor self with
  | None => liftR (Raise (AssertionError
                     "Please create WholeGraph tensor first."))
  | Some t =>
      letM idx := liftR (tensor_cuda idx) in
      letM val := liftR (tensor_cuda val) in
      letM val := (if dtype_neq (tensor_dtype val) (_dtype self)
                   then liftR (tensor_to val (_dtype self))
                   else retM val) in
      on_store (emb_scatter t val idx)
  end.

(** [__getitem__] (lines 509-526) *)
Definition __getitem__ (idx : Tensor) : Method Tensor :=
  letM self := get_self in
  match _tensor self with
  | None => liftR (Raise (AssertionError
                     "Please create WholeGraph tensor first."))
  | Some t =>
      letM idx := liftR (tensor_cuda idx) in
      on_store (emb_gather t idx)
  end.

(** The states of the handle (section 3 of the specification), read off
    the three optional fields. *)
Inductive HandleState : Type :=
  | UNBOUND
  | BOUND_PLAIN
  | BOUND_TRAINABLE
  | ILLEGAL.

Definition handle_state (self : WholeGraphDistTensor) : HandleState :=
  match _optimizer self, _tensor self, _module self with
  | None, None, None => if _use_wg_optimizer self then UNBOUND else ILLEGAL
  | None, Some _, None =>
      if _use_wg_optimizer self then ILLEGAL else BOUND_PLAIN
  | Some _, Some _, Some _ =>
      if _use_wg_optimizer self then BOUND_TRAINABLE else ILLEGAL
  | _, _, _ => ILLEGAL
  end.

End Handle.

(** ** A small instance of the collaborators

    Tensors are lists of rows of integers of one dtype; the service keeps
    what it is given.  [fail_path] tells the paths at which writing a shard
    file fails.  The instance serves to run the model on concrete inputs. *)

Module Toy.

Definition rows : Type := list (list Z).

Definition toy_shape (t : rows) : list Z :=
  [Z.of_nat (length t); Z.of_nat (length (hd [] t))].

Definition toy_concat (ts : list rows) : result rows :=
  match ts with
  | [] => Raise (ServiceError "torch.cat(): expected a non-empty list")
  | _ => Ok (concat ts)
  end.

Definition toy_create (shape : list Z) : result (list Z * rows) :=
  if hd 0 shape <? 0
  then Raise (ServiceError "negative dimension")
  else Ok (shape, []).

(** [dst.copy_(src)] broadcasts: [src] must have the rows of [dst], or
    one row, which is then repeated. *)
Definition toy_copy_ (wg : list Z * rows) (src : rows)
  : result (list Z * rows) :=
  if Z.of_nat (length src) =? hd 0 wg.1
  then Ok (wg.1, src)
  else match src with
       | [row] => Ok (wg.1, replicate (Z.to_nat (hd 0 wg.1)) row)
       | _ => Raise (ServiceError "sizes of tensors must match")
       end.

Definition toy_part_file_name (prefix : string) (i n : Z) : string :=
  prefix +:+ "_part_" +:+ str_int i +:+ "_of_" +:+ str_int n.

Definition toy_getattr (name : string) : result unit :=
  if String.eqb name "int64" then Ok tt else Raise (AttributeError name).

Definition torch (fail_path : string → bool) : External :=
  {| Tensor := rows;
     DType := unit;
     Comm := unit;
     WGTensor := list Z * rows;
     Shard := rows;
     tensor_shape := toy_shape;
     tensor_dtype := λ _, tt;
     dtype_str := λ _, "torch.int64";
     th_concat := toy_concat;
     tensor_slice := slice;
     get_local_device_communicator := Ok tt;
     create_wholememory_tensor := λ _ shape _, toy_create shape;
     local_tensor_copy_ := toy_copy_;
     local_to_file := λ wg path,
       if fail_path path then Raise (ServiceError "disk full") else Ok wg.2;
     destroy_wholememory_tensor := λ _, Ok tt;
     get_part_file_name := toy_part_file_name |}.

Definition never : string → bool := λ _, false.

(** The instance whose service never fails. *)
Definition plain : External := torch never.

(** Embeddings are their shape and optimizer; the store counts the
    embeddings created. *)
Definition toy_emb : Type := list Z * option nat.

Definition service (version : string) : @EmbedService plain :=
  @Build_EmbedService plain
    toy_emb nat toy_emb unit unit nat
    version
    (λ e, Ok e)
    (λ t, Ok t)
    (λ t _, Ok t)
    (λ _ _, false)
    (λ _ idx σ, (σ, Ok idx))
    (λ _ _ _ σ, (σ, Ok tt))
    (λ _ _ σ, (σ, Ok tt))
    (λ _ _ _ σ, (σ, Ok tt))
    (Ok tt)
    (Ok tt)
    (toy_getattr : string → result (@DType plain))
    (λ _ _ shape _ σ, (S σ, Ok (shape, None))).

(** A world with the given partition files and nothing converted yet. *)
Definition world (fs : gmap string (dict rows)) : @World plain :=
  @Build_World plain ∅ ∅ fs [].

End Toy.

(** * Properties *)

(** ** Row ranges of the resharder *)

Section Ranges.

Lemma subpart_size_ceil (R N : Z) :
  1 ≤ N → 0 ≤ R →
  R ≤ N * subpart_size R N ∧ N * subpart_size R N < R + N.
Proof.
  intros HN HR. unfold subpart_size.
  pose proof (Z.div_mod R (- N) ltac:(lia)) as Hdm.
  pose proof (Z.mod_neg_bound R (- N) ltac:(lia)) as Hb.
  nia.
Qed.

Lemma subpart_size_pos (R N : Z) : 1 ≤ N → 1 ≤ R → 1 ≤ subpart_size R N.
Proof.
  intros HN HR. pose proof (subpart_size_ceil R N HN ltac:(lia)) as [H1 H2].
  nia.
Qed.

Lemma length_range (n : Z) : length (range n) = Z.to_nat n.
Proof. unfold range. by rewrite length_fmap, length_seq. Qed.



Lemma range_snoc (n : Z) : 1 ≤ n → range n = range (n - 1) ++ [n - 1].
Proof.
  intros Hn. unfold range.
  replace (Z.to_nat n) with (S (Z.to_nat (n - 1))) by lia.
  rewrite seq_S, fmap_app. simpl. do 2 f_equal. lia.
Qed.

Lemma elem_of_range (n x : Z) : x ∈ range n ↔ 0 ≤ x < n.
Proof.
  unfold range. rewrite list_elem_of_fmap. split.
  - intros (i & -> & Hi). apply elem_of_seq in Hi. lia.
  - intros Hx. exists (Z.to_nat x). split; [lia|]. apply elem_of_seq. lia.
Qed.

Lemma length_shard_ranges (R N : Z) : length (shard_ranges R N) = Z.to_nat N.
Proof. unfold shard_ranges. by rewrite length_fmap, length_range. Qed.


(** All shards but the last follow the regular grid. *)
Definition grid_range (size part_num : Z) : Z * Z :=
  (part_num * size, (part_num + 1) * size).

Lemma shard_ranges_snoc (R N : Z) :
  1 ≤ N →
  shard_ranges R N =
    (grid_range (subpart_size R N) <$> range (N - 1))
    ++ [((N - 1) * subpart_size R N, R)].
Proof.
  intros HN. unfold shard_ranges. rewrite (range_snoc N HN), fmap_app.
  f_equal.
  - apply Forall_fmap_ext_1, Forall_forall. intros x Hx.
    apply elem_of_range in Hx. unfold shard_range, grid_range.
    destruct (x =? N - 1) eqn:E; [lia|done].
  - simpl. unfold shard_range. by rewrite Z.eqb_refl.
Qed.








End Ranges.

(** *** The ranges as a list *)

(** A range inside the tensor: [0 <= st <= end <= R]. *)
Definition well_formed_range (R : Z) (r : Z * Z) : Prop :=
  0 ≤ r.1 ≤ r.2 ∧ r.2 ≤ R.




Section RangeList.




End RangeList.

(** An individual length [end - st] can be negative, and a range can end
    past the last row: with 5 rows and 4 shards the size is 2, the third
    shard is rows 4 to 6 and the fourth runs from 6 to 5.  The slices are
    clamped by Python, the shape passed to the service is not. *)
Example shard_ranges_5_4 :
  shard_ranges 5 4 = [(0, 2); (2, 4); (4, 6); (6, 5)] ∧
  range_len <$> shard_ranges 5 4 = [2; 2; 2; -1] ∧
  (λ r, slice [10; 11; 12; 13; 14] r.1 r.2) <$> shard_ranges 5 4
    = [[10; 11]; [12; 13]; [14]; []].
Proof. by vm_compute. Qed.

(** ** The resharder's effects *)

Section ResharderFacts.
Context `{Ext : External}.

Lemma for_each_app {S A} (l k : list A) (body : A → ST S unit) (s : S) :
  for_each (l ++ k) body s = bindM (for_each l body) (λ _, for_each k body) s.
Proof.
  revert s. induction l as [|x l IH]; intros s; simpl; [done|].
  unfold bindM. destruct (body x s) as [s' [[]|e]]; [|done].
  by rewrite IH.
Qed.

(** [w'] is [w] with further shard files: same metadata and partition
    files, a longer log, no shard file removed. *)
Definition more_shards (w w' : World) : Prop :=
  metadata w' = metadata w ∧
  part_fs w' = part_fs w ∧
  shard_log w `prefix_of` shard_log w' ∧
  (∀ p, is_Some (wg_files w !! p) → is_Some (wg_files w' !! p)).

Lemma more_shards_refl (w : World) : more_shards w w.
Proof. by repeat split. Qed.

Lemma more_shards_trans (w1 w2 w3 : World) :
  more_shards w1 w2 → more_shards w2 w3 → more_shards w1 w3.
Proof.
  intros (Hm1 & Hp1 & Hl1 & Hf1) (Hm2 & Hp2 & Hl2 & Hf2).
  repeat split; [congruence|congruence|by etrans|auto].
Qed.

Lemma put_shard_more (sw : ShardWrite) (c : Shard) (w : World) :
  more_shards w (put_shard sw c w).1.
Proof.
  repeat split; simpl; [by apply prefix_app_r|].
  intros p Hp. destruct (decide (sw_path sw = p)) as [->|Hne].
  - rewrite lookup_insert_eq. by eexists.
  - by rewrite lookup_insert_ne.
Qed.

Section one_tensor.
Variables (whole : Tensor) (feat wg_folder : string) (num_parts : Z).
Variables (comm : Comm) (rows size : Z).

(** Whether the service calls for shard [j] go through, [destroy]
    included. *)
Definition shard_outcome (j : Z) : result unit :=
  letR x := shard_to_file whole feat wg_folder num_parts comm rows size j in
  destroy_wholememory_tensor x.2.

(** Shard [j] has been written in [w]. *)
Definition shard_written (j : Z) (w : World) : Prop :=
  ∃ sw c t,
    shard_to_file whole feat wg_folder num_parts comm rows size j
      = Ok (sw, c, t) ∧
    sw_feat sw = feat ∧ sw_part sw = j ∧
    sw ∈ shard_log w ∧ is_Some (wg_files w !! sw_path sw).

Let body := write_shard whole feat wg_folder num_parts comm rows size.

Lemma shard_to_file_feat (j : Z) sw c t :
  shard_to_file whole feat wg_folder num_parts comm rows size j
    = Ok (sw, c, t) →
  sw_feat sw = feat ∧ sw_part sw = j.
Proof.
  unfold shard_to_file.
  destruct (shard_range rows num_parts size j) as [st e].
  destruct (create_wholememory_tensor _ _ _) as [t1|]; [simpl|done].
  destruct (local_tensor_copy_ _ _) as [t2|]; [simpl|done].
  destruct (local_to_file _ _) as [c'|]; [simpl|done].
  by intros [= <- <- <-].
Qed.

Lemma write_shard_more (j : Z) (w : World) : more_shards w (body j w).1.
Proof.
  subst body. unfold write_shard, bindM, liftR.
  destruct (shard_to_file _ _ _ _ _ _ _ _) as [[[sw c] t]|e]; simpl.
  - destruct (destroy_wholememory_tensor t); apply put_shard_more.
  - apply more_shards_refl.
Qed.

Lemma write_shard_ok (j : Z) (w : World) :
  shard_outcome j = Ok tt →
  (body j w).2 = Ok tt ∧ shard_written j (body j w).1.
Proof.
  subst body. unfold shard_outcome, write_shard, bindM, liftR, shard_written.
  destruct (shard_to_file _ _ _ _ _ _ _ _) as [[[sw c] t]|e] eqn:E;
    simpl; [|done].
  intros ->. split; [done|]. exists sw, c, t.
  destruct (shard_to_file_feat _ _ _ _ E) as [-> ->].
  repeat split; try done; simpl.
  - apply elem_of_app. right. apply list_elem_of_singleton. done.
  - rewrite lookup_insert_eq. by eexists.
Qed.

Lemma write_shard_raise (j : Z) (w : World) (e : exn) :
  shard_outcome j = Raise e → (body j w).2 = Raise e.
Proof.
  subst body. unfold shard_outcome, write_shard, bindM, liftR.
  destruct (shard_to_file _ _ _ _ _ _ _ _) as [[[sw c] t]|e']; simpl.
  - by intros ->.
  - done.
Qed.

Lemma shard_written_more (j : Z) (w w' : World) :
  more_shards w w' → shard_written j w → shard_written j w'.
Proof.
  intros (_ & _ & Hl & Hf) (sw & c & t & E & ? & ? & Hin & Hfile).
  exists sw, c, t. repeat split; try done.
  - destruct Hl as [k ->]. apply elem_of_app. by left.
  - by apply Hf.
Qed.

Lemma for_each_shards_more (l : list Z) (w : World) :
  more_shards w (for_each l body w).1.
Proof.
  revert w. induction l as [|j l IH]; intros w; simpl.
  - apply more_shards_refl.
  - unfold bindM. pose proof (write_shard_more j w) as Hj.
    destruct (body j w) as [w1 [[]|e]]; simpl in *; [|done].
    eapply more_shards_trans; [exact Hj|apply IH].
Qed.

(** A run over shards that all go through writes each of them. *)
Lemma for_each_shards_ok (l : list Z) (w : World) :
  (∀ j, j ∈ l → shard_outcome j = Ok tt) →
  (for_each l body w).2 = Ok tt ∧
  ∀ j, j ∈ l → shard_written j (for_each l body w).1.
Proof.
  revert w. induction l as [|j l IH]; intros w Hok; simpl.
  - split; [done|]. intros j Hj. by apply elem_of_nil in Hj.
  - unfold bindM.
    destruct (write_shard_ok j w) as [Hr Hw]; [apply Hok; left|].
    destruct (body j w) as [w1 r]; simpl in *. subst r.
    destruct (IH w1) as [Hr' Hw']; [intros; apply Hok; by right|].
    split; [done|]. intros k [->|Hk]%elem_of_cons; [|by apply Hw'].
    eapply shard_written_more; [apply for_each_shards_more|done].
Qed.

(** A run stops at the first shard whose service calls fail; the shards
    before it stay written. *)
Lemma for_each_shards_raise (l1 l2 : list Z) (i : Z) (e : exn) (w : World) :
  (∀ j, j ∈ l1 → shard_outcome j = Ok tt) →
  shard_outcome i = Raise e →
  (for_each (l1 ++ i :: l2) body w).2 = Raise e ∧
  more_shards w (for_each (l1 ++ i :: l2) body w).1 ∧
  ∀ j, j ∈ l1 → shard_written j (for_each (l1 ++ i :: l2) body w).1.
Proof.
  intros Hok Hi.
  split; [|split; [apply for_each_shards_more|]].
  - rewrite for_each_app. unfold bindM.
    destruct (for_each_shards_ok l1 w Hok) as [Hr _].
    destruct (for_each l1 body w) as [w1 r]; simpl in *; subst r. simpl.
    unfold bindM. pose proof (write_shard_raise i w1 e Hi) as Hb.
    destruct (body i w1) as [w2 r]; simpl in *. by subst r.
  - rewrite for_each_app. unfold bindM.
    destruct (for_each_shards_ok l1 w Hok) as [Hr Hw].
    destruct (for_each l1 body w) as [w1 r]; simpl in *; subst r.
    intros j Hj. eapply shard_written_more; [|by apply Hw].
    apply (for_each_shards_more (i :: l2)).
Qed.

End one_tensor.

Lemma range_split (n i : Z) :
  0 ≤ i < n →
  ∃ l1 l2, range n = l1 ++ i :: l2 ∧ ∀ j, j ∈ l1 ↔ 0 ≤ j < i.
Proof.
  intros Hi. exists (range i), ((λ k, i + 1 + k) <$> range (n - i - 1)).
  split; [|apply elem_of_range].
  unfold range. apply list_eq. intros k.
  destruct (decide (k < Z.to_nat i)%nat) as [Hlt|Hge].
  - rewrite lookup_app_l by (rewrite length_fmap, length_seq; lia).
    rewrite !list_lookup_fmap, !lookup_seq_lt by lia. done.
  - rewrite lookup_app_r by (rewrite length_fmap, length_seq; lia).
    rewrite length_fmap, length_seq.
    destruct (decide (k = Z.to_nat i)) as [->|Hne].
    + rewrite Nat.sub_diag. simpl.
      rewrite list_lookup_fmap, lookup_seq_lt by lia. simpl. f_equal. lia.
    + destruct (k - Z.to_nat i)%nat as [|m] eqn:Em; [lia|]. simpl.
      rewrite !list_lookup_fmap.
      destruct (decide (k < Z.to_nat n)%nat) as [Hlt|Hge'].
      * rewrite !lookup_seq_lt by lia. simpl. f_equal. lia.
      * rewrite !lookup_seq_ge by lia. done.
Qed.

End ResharderFacts.

(** The record of each shard written by a run that goes through. *)

Section ResharderSuccess.
Context `{Ext : External}.
Variables (whole : Tensor) (feat wg_folder : string) (num_parts : Z).
Variables (comm : Comm) (rows size : Z).




End ResharderSuccess.

(** *** Claim C1 *)

Section RowRanges.
Context `{Ext : External}.


End RowRanges.

Section RowRangeExamples.
#[local] Existing Instance Toy.plain.

Definition five_rows : Tensor := [[10]; [11]; [12]; [13]; [14]].



(** What the run on five rows and four shards does: the third shard,
    created with two rows, receives the one row of [whole[4:6]] twice. *)
Example five_rows_four_shards :
  (wholegraph_processing five_rows "node/x" "wg" 4 (Toy.world ∅)).2
  = Raise (ServiceError "negative dimension") ∧
  sw_range <$>
    shard_log (wholegraph_processing five_rows "node/x" "wg" 4
                 (Toy.world ∅)).1
  = [(0, 2); (2, 4); (4, 6)] ∧
  wg_files (wholegraph_processing five_rows "node/x" "wg" 4 (Toy.world ∅)).1
    !! "wg/node~x_part_2_of_4"
  = Some [[14]; [14]].
Proof. repeat split; reflexivity. Qed.

End RowRangeExamples.

(** *** Claim C9 *)

Section MetadataFirst.
Context `{Ext : External}.

Definition whole_meta (whole : Tensor) : Meta :=
  {| meta_shape := tensor_shape whole;
     meta_dtype := dtype_str (tensor_dtype whole) |}.

(** Whatever happens after line 93, the world is the one with the new
    metadata entry, plus shard files. *)
Lemma wholegraph_processing_more (whole : Tensor) (feat wg_folder : string)
    (num_parts : Z) (w : World) :
  more_shards (set_metadata feat (whole_meta whole) w).1
              (wholegraph_processing whole feat wg_folder num_parts w).1.
Proof.
  unfold wholegraph_processing, bindM, liftR, whole_meta. simpl.
  destruct get_local_device_communicator as [comm|]; simpl;
    [|apply more_shards_refl].
  destruct (list_get (tensor_shape whole) 0) as [rows|]; simpl;
    [|apply more_shards_refl].
  destruct (floordiv rows (- num_parts)) as [q|]; simpl;
    [|apply more_shards_refl].
  apply for_each_shards_more.
Qed.

Lemma wholegraph_processing_metadata (whole : Tensor)
    (feat wg_folder : string) (num_parts : Z) (w : World) :
  metadata (wholegraph_processing whole feat wg_folder num_parts w).1
  = <[feat := whole_meta whole]> (metadata w).
Proof.
  by destruct (wholegraph_processing_more whole feat wg_folder num_parts w)
    as (-> & _).
Qed.

(** C9.  [wholegraph_processing] stores the metadata entry of the feature
    before any service call, and no outcome removes it.  When the service
    calls of shards [0..i-1] go through and those of shard [i] raise [e],
    the call raises [e], the entry of the feature is the shape and dtype of
    the whole tensor, the other entries are untouched, shards [0..i-1] are
    written and no file present before has gone. *)
Theorem C9_metadata_kept_on_failure (whole : Tensor)
    (feat wg_folder : string) (num_parts : Z) (w : World) :
  metadata (wholegraph_processing whole feat wg_folder num_parts w).1 !! feat
    = Some (whole_meta whole) ∧
  ∀ (comm : Comm) (rows i : Z) (e : exn),
    get_local_device_communicator = Ok comm →
    list_get (tensor_shape whole) 0 = Ok rows →
    0 ≤ i < num_parts →
    (∀ j, 0 ≤ j < i →
       shard_outcome whole feat wg_folder num_parts comm rows
         (subpart_size rows num_parts) j = Ok tt) →
    shard_outcome whole feat wg_folder num_parts comm rows
      (subpart_size rows num_parts) i = Raise e →
    (wholegraph_processing whole feat wg_folder num_parts w).2 = Raise e ∧
    (∀ k, k ≠ feat →
       metadata (wholegraph_processing whole feat wg_folder num_parts w).1
         !! k = metadata w !! k) ∧
    (∀ j, 0 ≤ j < i →
       shard_written whole feat wg_folder num_parts comm rows
         (subpart_size rows num_parts) j
         (wholegraph_processing whole feat wg_folder num_parts w).1) ∧
    (∀ p, is_Some (wg_files w !! p) →
       is_Some (wg_files
                  (wholegraph_processing whole feat wg_folder num_parts w).1
                !! p)).
Proof.
  split.
  { rewrite wholegraph_processing_metadata. apply lookup_insert_eq. }
  intros comm rows i e Hcomm Hrows Hi Hok Hfail.
  split; [|split; [|split]].
  - unfold wholegraph_processing, bindM, liftR. simpl.
    rewrite Hcomm, Hrows. unfold floordiv.
    destruct (- num_parts =? 0) eqn:E; [lia|]. simpl.
    destruct (range_split num_parts i Hi) as (l1 & l2 & -> & Hl1).
    change (- (rows / - num_parts)) with (subpart_size rows num_parts).
    apply for_each_shards_raise; [|done].
    intros j Hj. apply Hok. by apply Hl1.
  - intros k Hk. rewrite wholegraph_processing_metadata.
    by rewrite lookup_insert_ne.
  - intros j Hj.
    unfold wholegraph_processing, bindM, liftR. simpl.
    rewrite Hcomm, Hrows. unfold floordiv.
    destruct (- num_parts =? 0) eqn:E; [lia|]. simpl.
    destruct (range_split num_parts i Hi) as (l1 & l2 & -> & Hl1).
    change (- (rows / - num_parts)) with (subpart_size rows num_parts).
    eapply for_each_shards_raise; [|done|by apply Hl1].
    intros j' Hj'. apply Hok. by apply Hl1.
  - intros p Hp.
    destruct (wholegraph_processing_more whole feat wg_folder num_parts w)
      as (_ & _ & _ & Hf).
    by apply Hf.
Qed.

End MetadataFirst.

(** A service that cannot write the second of three shards: the first
    shard and the metadata entry are there after the failure. *)
Definition second_shard_fails (path : string) : bool :=
  String.eqb path "wg/node~x_part_1_of_3".

Definition failing_torch : External := Toy.torch second_shard_fails.

Section FailingService.
#[local] Existing Instance failing_torch.

Definition three_rows : Tensor := [[1]; [2]; [3]].

Definition no_files : World :=
  {| metadata := ∅; wg_files := ∅; part_fs := ∅; shard_log := [] |}.

Lemma C9_metadata_kept_on_failure_witness :
  (wholegraph_processing three_rows "node/x" "wg" 3 no_files).2
    = Raise (ServiceError "disk full") ∧
  metadata (wholegraph_processing three_rows "node/x" "wg" 3 no_files).1
    !! "node/x"
    = Some {| meta_shape := [3; 1]; meta_dtype := "torch.int64" |} ∧
  is_Some (wg_files
             (wholegraph_processing three_rows "node/x" "wg" 3 no_files).1
           !! "wg/node~x_part_0_of_3").
Proof.
  destruct (C9_metadata_kept_on_failure three_rows "node/x" "wg" 3 no_files)
    as [Hmeta Hfail].
  destruct (Hfail tt 3 1 (ServiceError "disk full")) as (Hr & _ & Hw & _).
  - reflexivity.
  - reflexivity.
  - lia.
  - intros j Hj. replace j with 0 by lia. reflexivity.
  - reflexivity.
  - split; [exact Hr|]. split; [exact Hmeta|].
    destruct (Hw 0 ltac:(lia)) as (sw & c & t & E & _ & _ & _ & Hfile).
    vm_compute in E. injection E as <- _ _. exact Hfile.
Defined.

End FailingService.

(** ** The feature-file trimmer *)

Section Paths.

Lemma string_app_cons (x : ascii) (a b : string) :
  String x a +:+ b = String x (a +:+ b).
Proof. reflexivity. Qed.

Lemma string_app_nil (b : string) : EmptyString +:+ b = b.
Proof. reflexivity. Qed.

Lemma string_app_assoc (a b c : string) : (a +:+ b) +:+ c = a +:+ (b +:+ c).
Proof.
  induction a as [|x a IH]; [done|]. by rewrite !string_app_cons, IH.
Qed.

Lemma string_length_app (a b : string) :
  String.length (a +:+ b) = (String.length a + String.length b)%nat.
Proof.
  induction a as [|x a IH]; [done|]. rewrite string_app_cons. simpl.
  by rewrite IH.
Qed.

(** The prefix [os.path.join(a, b)] puts before a relative [b]. *)
Definition join_prefix (a : string) : string :=
  if String.eqb a EmptyString || ends_with_slash a then a else a +:+ "/".

Lemma path_join_relative (a b : string) :
  starts_with_slash b = false → path_join a b = join_prefix a +:+ b.
Proof.
  intros Hb. unfold path_join, join_prefix. rewrite Hb.
  destruct (String.eqb a EmptyString || ends_with_slash a); [done|].
  by rewrite string_app_assoc.
Qed.

Lemma path_join_length (a b : string) :
  (String.length b ≤ String.length (path_join a b))%nat.
Proof.
  unfold path_join. destruct (starts_with_slash b); [done|].
  destruct (String.eqb a EmptyString || ends_with_slash a);
    rewrite !string_length_app; simpl; lia.
Qed.

Lemma join_prefix_length (a : string) :
  (String.length a ≤ String.length (join_prefix a))%nat.
Proof.
  unfold join_prefix.
  destruct (String.eqb a EmptyString || ends_with_slash a);
    rewrite ?string_length_app; lia.
Qed.

Lemma new_prefix_ne_bak_suffix (f : string) : "new_" +:+ f ≠ f +:+ ".bak".
Proof.
  remember (String.length f) as n eqn:Hn. revert f Hn.
  induction n as [n IH] using lt_wf_ind. intros f Hn.
  destruct f as [|a [|b [|c [|d g]]]];
    rewrite ?string_app_cons, ?string_app_nil;
    try (intros [=]; congruence).
  intros [= <- <- <- <- Hg]. apply (IH (String.length g)) in Hg; [done| |done].
  subst n. simpl. lia.
Qed.

Lemma starts_with_slash_app (f s : string) :
  f ≠ EmptyString → starts_with_slash (f +:+ s) = starts_with_slash f.
Proof. by destruct f. Qed.

(** The three paths [trim_feat_files] works on are pairwise distinct. *)
Lemma trim_paths_distinct (folder file_name : string) (part : Z) :
  let dir := part_dir folder part in
  path_join dir file_name ≠ path_join dir ("new_" +:+ file_name) ∧
  path_join dir file_name ≠ path_join dir (file_name +:+ ".bak") ∧
  path_join dir ("new_" +:+ file_name) ≠ path_join dir (file_name +:+ ".bak").
Proof.
  intros dir.
  assert (4 ≤ String.length (join_prefix dir))%nat as Hdir.
  { etrans; [|apply join_prefix_length]. subst dir. unfold part_dir.
    etrans; [|apply path_join_length]. simpl. lia. }
  rewrite (path_join_relative dir ("new_" +:+ file_name)) by done.
  destruct (starts_with_slash file_name) eqn:Habs.
  - assert (file_name ≠ EmptyString) as Hne by (by destruct file_name).
    assert (path_join dir file_name = file_name) as ->
      by (unfold path_join; by rewrite Habs).
    assert (path_join dir (file_name +:+ ".bak") = file_name +:+ ".bak") as ->.
    { unfold path_join. by rewrite starts_with_slash_app, Habs. }
    repeat split; intros Heq; apply (f_equal String.length) in Heq;
      rewrite ?string_length_app in Heq; simpl in Heq; lia.
  - rewrite (path_join_relative dir file_name) by done.
    rewrite (path_join_relative dir (file_name +:+ ".bak")).
    2:{ destruct file_name; [done|]. by rewrite starts_with_slash_app. }
    repeat split.
    + intros Heq; apply (f_equal String.length) in Heq.
      rewrite !string_length_app in Heq. simpl in Heq. lia.
    + intros Heq; apply (f_equal String.length) in Heq.
      rewrite !string_length_app in Heq. simpl in Heq. lia.
    + intros Heq%String.app_inj. by apply new_prefix_ne_bak_suffix in Heq.
Qed.

End Paths.

Section Trimmer.
Context `{Ext : External}.

Definition with_part_fs (w : World) (fs : gmap string (dict Tensor)) : World :=
  {| metadata := metadata w; wg_files := wg_files w;
     part_fs := fs; shard_log := shard_log w |}.

(** A trim whose feature file is in place: the trimmed features are
    saved, the original moves to [.bak], the new file takes its name. *)
Lemma trim_feat_files_ok (trimmed_feats : PyFeats) (folder file_name : string)
    (part : Z) (d orig : dict Tensor) (w : World) :
  subscript_int trimmed_feats part = Ok d →
  part_fs w !! path_join (part_dir folder part) file_name = Some orig →
  trim_feat_files trimmed_feats folder file_name part w =
    (with_part_fs w
       (<[path_join (part_dir folder part) file_name := d]>
          (delete (path_join (part_dir folder part) ("new_" +:+ file_name))
             (<[path_join (part_dir folder part) (file_name +:+ ".bak")
                  := orig]>
                (delete (path_join (part_dir folder part) file_name)
                   (<[path_join (part_dir folder part)
                        ("new_" +:+ file_name) := d]> (part_fs w)))))),
     Ok tt).
Proof.
  intros Hd Horig.
  destruct (trim_paths_distinct folder file_name part) as (Hfn & Hfb & Hnb).
  cbv zeta in *.
  set (F := path_join (part_dir folder part) file_name) in *.
  set (N := path_join (part_dir folder part) ("new_" +:+ file_name)) in *.
  set (B := path_join (part_dir folder part) (file_name +:+ ".bak")) in *.
  unfold trim_feat_files, bindM, liftR. rewrite Hd.
  fold F N B. unfold save_tensors, os_rename. simpl.
  rewrite lookup_insert_ne, Horig by done. simpl.
  rewrite lookup_insert_ne by done.
  rewrite lookup_delete_ne by done.
  rewrite lookup_insert_eq. done.
Qed.

(** No run of the trimmer, whether it returns or raises, removes a [.bak]
    file that was there. *)
Lemma trim_feat_files_keeps_bak (trimmed_feats : PyFeats)
    (folder file_name : string) (part : Z) (w : World) :
  is_Some (part_fs w
           !! path_join (part_dir folder part) (file_name +:+ ".bak")) →
  is_Some (part_fs (trim_feat_files trimmed_feats folder file_name part w).1
           !! path_join (part_dir folder part) (file_name +:+ ".bak")).
Proof.
  intros Hbak.
  destruct (trim_paths_distinct folder file_name part) as (Hfn & Hfb & Hnb).
  cbv zeta in *.
  set (F := path_join (part_dir folder part) file_name) in *.
  set (N := path_join (part_dir folder part) ("new_" +:+ file_name)) in *.
  set (B := path_join (part_dir folder part) (file_name +:+ ".bak")) in *.
  unfold trim_feat_files, bindM, liftR.
  destruct (subscript_int trimmed_feats part) as [d|]; [|done].
  fold F N B. unfold save_tensors, os_rename. simpl.
  rewrite lookup_insert_ne by done.
  destruct (part_fs w !! F) as [orig|] eqn:EF; simpl.
  - rewrite lookup_insert_ne by done.
    rewrite lookup_delete_ne by done.
    rewrite lookup_insert_eq. simpl.
    rewrite lookup_insert_ne by done.
    rewrite lookup_delete_ne by done.
    rewrite lookup_insert_eq. by eexists.
  - by rewrite lookup_insert_ne by done.
Qed.

(** C8.  Trimming a partition whose feature file is in place, then
    trimming it again with the same arguments (the [.bak] file of the
    first run being there): both calls return; after each the feature file
    holds the remaining features, and a [.bak] file exists.  The second
    run moves the already trimmed file over the first backup.  [os.rename]
    is the POSIX one, which replaces an existing destination. *)
Theorem C8_trim_twice (trimmed_feats : list (dict Tensor))
    (folder file_name : string) (part : Z) (d orig : dict Tensor)
    (w : World) :
  list_get trimmed_feats part = Ok d →
  part_fs w !! path_join (part_dir folder part) file_name = Some orig →
  let trim := trim_feat_files (FeatList trimmed_feats) folder file_name part in
  let file := path_join (part_dir folder part) file_name in
  let bak := path_join (part_dir folder part) (file_name +:+ ".bak") in
  (trim w).2 = Ok tt ∧
  part_fs (trim w).1 !! file = Some d ∧
  part_fs (trim w).1 !! bak = Some orig ∧
  (trim (trim w).1).2 = Ok tt ∧
  part_fs (trim (trim w).1).1 !! file = Some d ∧
  part_fs (trim (trim w).1).1 !! bak = Some d.
Proof.
  intros Hd Horig trim file bak.
  destruct (trim_paths_distinct folder file_name part) as (Hfn & Hfb & Hnb).
  cbv zeta in *.
  assert (∀ w' o, part_fs w' !! file = Some o →
            (trim w').2 = Ok tt ∧ part_fs (trim w').1 !! file = Some d ∧
            part_fs (trim w').1 !! bak = Some o) as Hstep.
  { intros w' o Ho. subst trim.
    rewrite (trim_feat_files_ok _ _ _ _ d o) by done. simpl.
    split; [done|]. split; [apply lookup_insert_eq|].
    rewrite lookup_insert_ne by done.
    rewrite lookup_delete_ne by done.
    apply lookup_insert_eq. }
  destruct (Hstep w orig Horig) as (H1 & H2 & H3).
  destruct (Hstep (trim w).1 d H2) as (H4 & H5 & H6).
  done.
Qed.

End Trimmer.

Section TrimmerExample.
#[local] Existing Instance Toy.plain.

(** One partition whose file holds features [x] and [y]; [y] remains. *)
Definition one_partition : World :=
  Toy.world
    {[ "data/part0/node_feat.dgl" :=
         [("node/x", [[1; 2]; [3; 4]]); ("node/y", [[5]; [6]])] ]}.

Lemma C8_trim_twice_witness :
  let trim :=
    trim_feat_files (FeatList [[("node/y", [[5]; [6]])]])
      "data" "node_feat.dgl" 0 in
  (trim one_partition).2 = Ok tt ∧
  (trim (trim one_partition).1).2 = Ok tt ∧
  part_fs (trim (trim one_partition).1).1 !! "data/part0/node_feat.dgl"
    = Some [("node/y", [[5]; [6]])].
Proof.
  destruct (C8_trim_twice (Ext := Toy.plain)
              [[("node/y", [[5]; [6]])]] "data" "node_feat.dgl" 0
              [("node/y", [[5]; [6]])]
              [("node/x", [[1; 2]; [3; 4]]); ("node/y", [[5]; [6]])]
              one_partition eq_refl eq_refl)
    as (H1 & _ & _ & H4 & H5 & _).
  exact (conj H1 (conj H4 H5)).
Defined.

End TrimmerExample.

(** ** Loops and invariants *)

Section Loops.
Context {S : Type} (R : S → S → Prop).
Hypothesis R_refl : ∀ s, R s s.
Hypothesis R_trans : ∀ s1 s2 s3, R s1 s2 → R s2 s3 → R s1 s3.

Lemma bindM_rel {A B} (m : ST S A) (k : A → ST S B) (s : S) :
  R s (m s).1 → (∀ a s', R s' (k a s').1) → R s (bindM m k s).1.
Proof.
  intros Hm Hk. unfold bindM. destruct (m s) as [s' [a|e]]; simpl in *.
  - eapply R_trans; [exact Hm|apply Hk].
  - exact Hm.
Qed.

Lemma for_each_rel {A} (l : list A) (body : A → ST S unit) :
  (∀ x s, R s (body x s).1) → ∀ s, R s (for_each l body s).1.
Proof.
  intros Hbody. induction l as [|x l IH]; intros s; simpl; [apply R_refl|].
  apply bindM_rel; [apply Hbody|]. intros _ s'. apply IH.
Qed.

Lemma for_fold_rel {A L} (l : list A) (body : L → A → ST S L) :
  (∀ v x s, R s (body v x s).1) → ∀ v s, R s (for_fold l body v s).1.
Proof.
  intros Hbody. induction l as [|x l IH]; intros v s; simpl; [apply R_refl|].
  apply bindM_rel; [apply Hbody|]. intros v' s'. apply IH.
Qed.

End Loops.

(** ** The low-memory path's final pass *)

Section LowMemoryTrim.
Context `{Ext : External}.

Definition same_part_fs (w w' : World) : Prop := part_fs w' = part_fs w.

Lemma same_part_fs_refl (w : World) : same_part_fs w w.
Proof. done. Qed.

Lemma same_part_fs_trans (w1 w2 w3 : World) :
  same_part_fs w1 w2 → same_part_fs w2 w3 → same_part_fs w1 w3.
Proof. unfold same_part_fs. congruence. Qed.

Lemma liftR_same {A} (r : result A) (w : World) : (liftR r w).1 = w.
Proof. done. Qed.

Lemma wholegraph_processing_part_fs (whole : Tensor) (feat wg_folder : string)
    (num_parts : Z) (w : World) :
  same_part_fs w (wholegraph_processing whole feat wg_folder num_parts w).1.
Proof.
  unfold same_part_fs.
  destruct (wholegraph_processing_more whole feat wg_folder num_parts w)
    as (_ & Hfs & _).
  exact Hfs.
Qed.

Lemma read_feature_low_same (folder file_name feat : string)
    (st : option Tensor * Z) (name : string) (w : World) :
  (read_feature_low folder file_name feat st name w).1 = w.
Proof.
  unfold read_feature_low, bindM, load_tensors, liftR, retM.
  destruct (part_fs w !! _) as [nfeat|]; [|done].
  destruct (dict_mem feat nfeat); simpl; [|done].
  destruct (dict_get nfeat feat) as [t|]; [|done].
  destruct st.1 as [acc|]; [|done].
  by destruct (th_concat [acc; t]).
Qed.

Lemma convert_feature_low_part_fs (wg_folder folder file_name : string)
    (part_files : list string) (feat : string) (w : World) :
  same_part_fs w
    (convert_feature_low wg_folder folder file_name part_files feat w).1.
Proof.
  unfold convert_feature_low.
  apply (bindM_rel same_part_fs same_part_fs_trans).
  - apply (for_fold_rel same_part_fs same_part_fs_refl same_part_fs_trans).
    intros v x s. by rewrite read_feature_low_same.
  - intros st s'. destruct st.1; [|done].
    apply wholegraph_processing_part_fs.
Qed.

(** The trim of the final pass subscripts a dictionary with an integer:
    it raises before anything is saved or renamed. *)
Lemma trim_feat_files_dict (d : dict Tensor) (folder file_name : string)
    (part : Z) (w : World) :
  trim_feat_files (FeatDict d) folder file_name part w
  = (w, Raise (KeyErrorInt part)).
Proof. done. Qed.

Lemma trim_partition_low_raises (fname_dict : dict (list string))
    (folder file_name : string) (num_parts : Z) (name : string) (w : World) :
  (trim_partition_low fname_dict folder file_name num_parts name w).1 = w ∧
  is_ok (trim_partition_low fname_dict folder file_name num_parts name w).2
    = false.
Proof.
  unfold trim_partition_low, bindM, load_tensors.
  destruct (part_fs w !! _) as [d|]; [|done].
  assert (∀ keys (d0 : dict Tensor),
    (for_fold keys (λ d1 feat, liftR (dict_del d1 feat)) d0 w).1 = w) as Hw.
  { induction keys as [|k keys IH]; intros d0; simpl; [done|].
    unfold bindM, liftR. destruct (dict_del d0 k); [apply IH|done]. }
  specialize (Hw (requested_keys fname_dict) d).
  destruct (for_fold _ _ d w) as [w' [d'|e]]; simpl in *; subst w'; done.
Qed.

(** C5 on the code.  With at least one partition directory the
    low-memory path never returns normally, and it leaves every partition
    feature file as it was: the final pass calls [trim_feat_files] with one
    partition's dictionary and the counter already incremented, and the
    subscript [trimmed_feats[part]] raises. *)
Theorem C5_low_mem_never_trims (fname_dict : dict (list string))
    (file_name folder name : string) (rest : list string) (w : World) :
  is_ok (convert_low fname_dict file_name folder (name :: rest) w).2 = false ∧
  part_fs (convert_low fname_dict file_name folder (name :: rest) w).1
    = part_fs w.
Proof.
  unfold convert_low.
  set (conv := for_each _ _).
  set (final := bindM (for_fold (name :: rest) _ 0) _).
  assert (∀ w1, (final w1).1 = w1 ∧ is_ok (final w1).2 = false) as Hfinal.
  { intros w1. subst final. simpl. unfold bindM.
    destruct (trim_partition_low_raises fname_dict folder file_name 0 name w1)
      as [Hw Hr].
    by destruct (trim_partition_low _ _ _ _ _ _) as [w2 [n|e]]. }
  assert (same_part_fs w (conv w).1) as Hconv.
  { apply (for_each_rel same_part_fs same_part_fs_refl same_part_fs_trans).
    intros x s. apply convert_feature_low_part_fs. }
  unfold bindM. destruct (conv w) as [w1 [[]|e]]; simpl in *; [|done].
  destruct (Hfinal w1) as [Hw Hr]. by rewrite Hw, Hr.
Qed.

End LowMemoryTrim.

Section LowMemoryExample.
#[local] Existing Instance Toy.plain.

(** The failing run: one partition, feature [x] requested.  The feature is
    converted, then the final pass raises [KeyError: 1] and
    [part0/node_feat.dgl] still holds [x]; the high-memory path on the same
    input trims partition 0. *)
Example low_mem_one_partition :
  let run low :=
    convert_feat_to_wholegraph [("node", ["x"])] "node_feat.dgl" "data" low
      [("part0", true)] one_partition in
  (run true).2 = Raise (KeyErrorInt 1) ∧
  part_fs (run true).1 = part_fs one_partition ∧
  (run false).2 = Ok tt ∧
  part_fs (run false).1 !! "data/part0/node_feat.dgl"
    = Some [("node/y", [[5]; [6]])].
Proof. by vm_compute. Qed.

End LowMemoryExample.

(** ** The loader *)

Section LoaderFacts.
Context `{Ext : External} `{Svc : !EmbedService}.

(** Lines 281-294 once the dtype and the shape are known. *)
Definition open_embedding (comm : GlobalComm) (dtype : DType)
    (shape : list Z) (policy : CachePolicy) (feat_path : string)
    (num_parts : Z) : ST WGStore Emb :=
  letM emb := create_embedding comm dtype shape policy in
  from_file_prefix emb feat_path num_parts ;;;
  retM emb.

(** C10.  [load_wg_feat] creates the embedding with shape [[n, 1]] when
    the recorded shape is [[n]], and with the recorded shape itself when it
    has two entries. *)
Theorem C10_load_promotes_1d (json_files : gmap string (gmap string Meta))
    (part_config_path : string) (num_parts : Z) (type_name name : string)
    (wg_metadata : gmap string Meta) (entry : Meta)
    (comm : GlobalComm) (policy : CachePolicy) (dtype_name : string)
    (dtype : DType) (σ : WGStore) :
  get_global_communicator = Ok comm →
  create_builtin_cache_policy = Ok policy →
  json_files !! path_join (dirname part_config_path) "wholegraph/metadata.json"
    = Some wg_metadata →
  wg_metadata !! (type_name +:+ "/" +:+ name) = Some entry →
  list_get (split (meta_dtype entry) ".") 1 = Ok dtype_name →
  th_getattr dtype_name = Ok dtype →
  let feat_path :=
    path_join (path_join (dirname part_config_path) "wholegraph")
              (type_name +:+ "~" +:+ name) in
  (∀ n, meta_shape entry = [n] →
     embedding_shape (meta_shape entry) = Ok [n; 1] ∧
     load_wg_feat true json_files part_config_path num_parts type_name name σ
     = open_embedding comm dtype [n; 1] policy feat_path num_parts σ) ∧
  (∀ n d, meta_shape entry = [n; d] →
     embedding_shape (meta_shape entry) = Ok [n; d] ∧
     load_wg_feat true json_files part_config_path num_parts type_name name σ
     = open_embedding comm dtype [n; d] policy feat_path num_parts σ).
Proof.
  intros Hcomm Hpol Hjson Hentry Hname Hdtype feat_path.
  assert (∀ shape, embedding_shape (meta_shape entry) = Ok shape →
    load_wg_feat true json_files part_config_path num_parts type_name name σ
    = open_embedding comm dtype shape policy feat_path num_parts σ) as Hload.
  { intros shape Hshape. unfold load_wg_feat, open_embedding. simpl.
    unfold bindM at 1, liftR at 1. rewrite Hcomm.
    unfold bindM at 1, liftR at 1. rewrite Hpol.
    unfold bindM at 1, liftR at 1. rewrite Hjson.
    unfold bindM at 1, liftR at 1. rewrite Hentry.
    unfold bindM at 1, liftR at 1. rewrite Hname.
    unfold bindM at 1, liftR at 1. rewrite Hdtype.
    unfold bindM at 1, liftR at 1. rewrite Hshape.
    done. }
  split.
  - intros n Hn. assert (embedding_shape (meta_shape entry) = Ok [n; 1]) as E
      by (by rewrite Hn). split; [done|]. by apply Hload.
  - intros n d Hn.
    assert (embedding_shape (meta_shape entry) = Ok [n; d]) as E
      by (by rewrite Hn). split; [done|]. by apply Hload.
Qed.

End LoaderFacts.

Section LoaderExample.
#[local] Existing Instance Toy.plain.

Definition recorded_1d : gmap string (gmap string Meta) :=
  {[ "data/wholegraph/metadata.json" :=
       {[ "node/label" :=
            {| meta_shape := [7]; meta_dtype := "torch.int64" |} ]} ]}.

Lemma C10_load_promotes_1d_witness :
  load_wg_feat (Svc := Toy.service "23.12.00") true recorded_1d
    "data/part.json" 2 "node" "label" 0%nat
  = (1%nat, Ok ([7; 1], None)).
Proof.
  destruct (C10_load_promotes_1d (Svc := Toy.service "23.12.00")
              recorded_1d "data/part.json" 2 "node" "label"
              {[ "node/label" :=
                   {| meta_shape := [7]; meta_dtype := "torch.int64" |} ]}
              {| meta_shape := [7]; meta_dtype := "torch.int64" |}
              tt tt "int64" tt 0%nat
              eq_refl eq_refl eq_refl eq_refl eq_refl eq_refl)
    as [H1 _].
  destruct (H1 7 eq_refl) as [_ ->]. reflexivity.
Defined.

End LoaderExample.

(** ** The distributed tensor handle *)

Section HandleFacts.
Context `{Ext : External} `{Svc : !EmbedService}.

(** The object the constructor builds before line 408. *)
Definition fresh_handle (nnodes embedding_dim : Z) (dtype : DType)
    (name location : string) (use_wg_optimizer : bool)
  : WholeGraphDistTensor :=
  {| _nnodes := nnodes; _embedding_dim := embedding_dim; _name := name;
     _dtype := dtype; _location := location;
     _use_wg_optimizer := use_wg_optimizer;
     _tensor := None; _module := None; _optimizer := None |}.

Lemma init_short_shape (G : Globals) (shape : list Z) (dtype : DType)
    (name location : string) (use_wg_optimizer : bool) (σ : WGStore) :
  (length shape < 2)%nat →
  __init__ G shape dtype name location use_wg_optimizer σ
  = (σ, Raise IndexError).
Proof.
  intros Hlen. destruct shape as [|n [|d rest]]; [done|done|].
  simpl in Hlen. lia.
Qed.

Lemma list_get_nonneg {A} (l : list A) (i : Z) (x : A) :
  0 ≤ i → l !! Z.to_nat i = Some x → list_get l i = Ok x.
Proof.
  intros Hi Hx. unfold list_get.
  pose proof (lookup_lt_Some _ _ _ Hx) as Hlt.
  destruct (i <? 0) eqn:E1; [apply Z.ltb_lt in E1; lia|].
  rewrite E1. simpl.
  destruct (Z.of_nat (length l) <=? i) eqn:E2; [apply Z.leb_le in E2; lia|].
  by rewrite Hx.
Qed.

Lemma list_get_0 {A} (x : A) (l : list A) : list_get (x :: l) 0 = Ok x.
Proof. by apply list_get_nonneg. Qed.

Lemma list_get_1 {A} (x y : A) (l : list A) : list_get (x :: y :: l) 1 = Ok y.
Proof. by apply list_get_nonneg. Qed.

Lemma init_deferred (G : Globals) (n d : Z) (rest : list Z) (dtype : DType)
    (name location : string) (σ : WGStore) :
  String.leb "23.12.00" wg_version = true →
  __init__ G (n :: d :: rest) dtype name location true σ
  = (σ, Ok (fresh_handle n d dtype name location true)).
Proof.
  intros Hv. unfold __init__, bindM, liftR.
  rewrite list_get_0, list_get_1, Hv. done.
Qed.

(** Without optimizer mode the constructor looks up
    [create_wg_dist_tensor] and calls what it finds on the whole shape. *)
Lemma init_eager (G : Globals) (n d : Z) (rest : list Z) (dtype : DType)
    (name location : string) (σ : WGStore) :
  String.leb "23.12.00" wg_version = true →
  __init__ G (n :: d :: rest) dtype name location false σ
  = bindM (liftR (read_global "create_wg_dist_tensor"
                    (g_create_wg_dist_tensor G)))
      (λ create,
         bindM (create (n :: d :: rest) dtype location None)
           (λ t, retM (with_tensor
                         (fresh_handle n d dtype name location false)
                         (Some t)))) σ.
Proof.
  intros Hv. unfold __init__, bindM, liftR.
  rewrite list_get_0, list_get_1, Hv. done.
Qed.

(** Were [create_wg_dist_tensor] bound to a function that creates the
    tensor, the constructor would return a handle holding it, on which
    reads and writes pass their assertion. *)
Lemma init_eager_with_helper (G : Globals) (n d : Z) (dtype : DType)
    (name location : string) (σ σ' : WGStore) (t : Emb)
    (create : list Z → DType → string → option Optimizer → ST WGStore Emb) :
  String.leb "23.12.00" wg_version = true →
  g_create_wg_dist_tensor G = Some create →
  create [n; d] dtype location None σ = (σ', Ok t) →
  ∃ self,
    __init__ G [n; d] dtype name location false σ = (σ', Ok self) ∧
    _tensor self = Some t ∧
    handle_state self = BOUND_PLAIN ∧
    (∀ idx idx' out σ1 σ2,
       tensor_cuda idx = Ok idx' →
       emb_gather t idx' σ1 = (σ2, Ok out) →
       __getitem__ idx (self, σ1) = ((self, σ2), Ok out)) ∧
    (∀ idx val idx' val' val'' σ1 σ2,
       tensor_cuda idx = Ok idx' →
       tensor_cuda val = Ok val' →
       (if dtype_neq (tensor_dtype val') dtype
        then tensor_to val' dtype else Ok val') = Ok val'' →
       emb_scatter t val'' idx' σ1 = (σ2, Ok tt) →
       __setitem__ idx val (self, σ1) = ((self, σ2), Ok tt)).
Proof.
  intros Hv HG Hcreate.
  exists (with_tensor (fresh_handle n d dtype name location false) (Some t)).
  split; [|split; [done|split; [done|split]]].
  - rewrite init_eager by done. unfold bindM, liftR, read_global.
    by rewrite HG, Hcreate.
  - intros idx idx' out σ1 σ2 Hidx Hg.
    unfold __getitem__, bindM, get_self, liftR, on_store. simpl.
    by rewrite Hidx, Hg.
  - intros idx val idx' val' val'' σ1 σ2 Hidx Hval Hto Hs.
    unfold __setitem__, bindM, get_self, liftR, on_store, retM. simpl.
    rewrite Hidx, Hval.
    destruct (dtype_neq (tensor_dtype val') dtype).
    + rewrite Hto. simpl. by rewrite Hs.
    + injection Hto as <-. simpl. by rewrite Hs.
Qed.

(** *** Claim C3 *)

(** C3 on the code.  Line 415 calls [create_wg_dist_tensor], a name the
    module neither defines nor imports.  On every two-dimensional shape,
    whatever the dtype, the name and the location, the constructor called
    with [use_wg_optimizer=False] therefore never returns a handle: on a
    service of version 23.12.00 or later it raises [NameError] for
    [create_wg_dist_tensor] when it comes to create the tensor, on an
    older one the assertion of line 403 fails first.  The store is
    untouched: no tensor is created, and there is no object to read from
    or to write to. *)
Theorem C3_eager_init_raises_name_error (n d : Z) (dtype : DType)
    (name location : string) (σ : WGStore) :
  (String.leb "23.12.00" wg_version = true →
   __init__ module_globals [n; d] dtype name location false σ
   = (σ, Raise (NameError "create_wg_dist_tensor"))) ∧
  (∀ σ' self,
     __init__ module_globals [n; d] dtype name location false σ
     ≠ (σ', Ok self)) ∧
  (__init__ module_globals [n; d] dtype name location false σ).1 = σ.
Proof.
  unfold __init__, bindM, liftR. rewrite list_get_0, list_get_1.
  destruct (String.leb "23.12.00" wg_version); simpl; by repeat split.
Qed.

(** *** Claim C4 *)

(** Before any attach, a handle built in optimizer mode has no tensor and
    a read fails on the assertion of line 523. *)
Lemma deferred_handle_unbound (n d : Z) (dtype : DType)
    (name location : string) (idx : Tensor) (σ : WGStore) :
  let self := fresh_handle n d dtype name location true in
  _tensor self = None ∧
  handle_state self = UNBOUND ∧
  __getitem__ idx (self, σ)
  = ((self, σ), Raise (AssertionError
                         "Please create WholeGraph tensor first.")).
Proof. done. Qed.

(** C4 on the code.  On a handle built with [use_wg_optimizer=True],
    [attach_wg_optimizer] stores the optimizer and then raises
    [NameError]: line 430 calls [create_wg_dist_tensor] on [shape],
    [dtype] and [location], four names bound neither in the method nor in
    the module; the callee is the first one looked up.  No tensor is created,
    the handle is left with an optimizer and without tensor or module, a
    read still fails, and any further attach is refused because an
    optimizer exists. *)
Theorem C4_attach_raises_name_error (shape : list Z) (dtype : DType)
    (name location : string) (σ σ' : WGStore) (self : WholeGraphDistTensor)
    (opt opt' : Optimizer) (idx : Tensor) :
  __init__ module_globals shape dtype name location true σ = (σ', Ok self) →
  σ' = σ ∧
  _tensor self = None ∧
  handle_state self = UNBOUND ∧
  attach_wg_optimizer module_globals opt (self, σ)
  = ((with_optimizer self (Some opt), σ),
     Raise (NameError "create_wg_dist_tensor")) ∧
  _tensor (with_optimizer self (Some opt)) = None ∧
  handle_state (with_optimizer self (Some opt)) = ILLEGAL ∧
  __getitem__ idx (with_optimizer self (Some opt), σ)
  = ((with_optimizer self (Some opt), σ),
     Raise (AssertionError "Please create WholeGraph tensor first.")) ∧
  attach_wg_optimizer module_globals opt' (with_optimizer self (Some opt), σ)
  = ((with_optimizer self (Some opt), σ),
     Raise (RuntimeError OptimizerAlreadyExists)).
Proof.
  intros Hinit.
  destruct shape as [|n [|d rest]]; [done|done|].
  unfold __init__, bindM, liftR in Hinit.
  rewrite list_get_0, list_get_1 in Hinit.
  destruct (String.leb "23.12.00" wg_version); [|done].
  simpl in Hinit. injection Hinit as <- <-. done.
Qed.

(** Were the four names bound and the service calls successful, the
    first attach would bind optimizer, tensor and module, and a second
    attach would be refused. *)
Lemma attach_once_with_globals (G : Globals) (shape : list Z) (dtype : DType)
    (location : string) (self : WholeGraphDistTensor) (σ σ' : WGStore)
    (opt opt' : Optimizer) (t : Emb) (m : EmbModule)
    (create : list Z → DType → string → option Optimizer → ST WGStore Emb) :
  handle_state self = UNBOUND →
  g_create_wg_dist_tensor G = Some create →
  g_shape G = Some shape → g_dtype G = Some dtype →
  g_location G = Some location →
  create shape dtype location (Some opt) σ = (σ', Ok t) →
  WholeMemoryEmbeddingModule t = Ok m →
  let bound :=
    with_module (with_tensor (with_optimizer self (Some opt)) (Some t))
                (Some m) in
  attach_wg_optimizer G opt (self, σ) = ((bound, σ'), Ok tt) ∧
  handle_state bound = BOUND_TRAINABLE ∧
  attach_wg_optimizer G opt' (bound, σ')
  = ((bound, σ'), Raise (RuntimeError OptimizerAlreadyExists)).
Proof.
  intros Hst Hc Hs Hd Hl Hcreate Hmod bound.
  unfold handle_state in Hst.
  destruct self as [nn ed nm dt lc use ten mdl o]; simpl in *.
  destruct o, ten, mdl, use; try done.
  subst bound. unfold attach_wg_optimizer, bindM, get_self, py_assert,
    set_self, liftR, on_store, retM, read_global. simpl.
  rewrite Hc, Hs, Hd, Hl. simpl. rewrite Hcreate. simpl. rewrite Hmod. done.
Qed.

(** *** Claim C6 *)

(** C6 as the code has it.  The constructor reads [shape[0]] and
    [shape[1]] and checks nothing else about the shape: with fewer than two
    entries it raises [IndexError] at once and the store is untouched; with
    two or more entries it records the first two and goes on, so a shape of
    three or more dimensions is accepted (in optimizer mode the handle is
    returned without any service call; otherwise the constructor goes on
    to look up and call [create_wg_dist_tensor] on the whole shape, as for
    a shape of two entries).  This holds whatever the module-level names
    are bound to. *)
Theorem C6_shape_needs_two_entries (G : Globals) (shape : list Z)
    (dtype : DType) (name location : string) (use_wg_optimizer : bool)
    (σ : WGStore) :
  ((length shape < 2)%nat →
     __init__ G shape dtype name location use_wg_optimizer σ
     = (σ, Raise IndexError)) ∧
  (∀ n d rest,
     shape = n :: d :: rest →
     String.leb "23.12.00" wg_version = true →
     __init__ G shape dtype name location true σ
     = (σ, Ok (fresh_handle n d dtype name location true)) ∧
     __init__ G shape dtype name location false σ
     = bindM (liftR (read_global "create_wg_dist_tensor"
                       (g_create_wg_dist_tensor G)))
         (λ create,
            bindM (create shape dtype location None)
              (λ t, retM (with_tensor
                            (fresh_handle n d dtype name location false)
                            (Some t)))) σ).
Proof.
  split; [apply init_short_shape|].
  intros n d rest -> Hv. split; [by apply init_deferred|by apply init_eager].
Qed.

End HandleFacts.

(** The service at version 24.02.00. *)
Definition recent_service : @EmbedService Toy.plain := Toy.service "24.02.00".

Section HandleExamples.
#[local] Existing Instance Toy.plain.
#[local] Existing Instance recent_service.

Definition two_indices : Tensor := [[0]; [3]].

Definition deferred_4_2 : WholeGraphDistTensor :=
  fresh_handle 4 2 tt "emb" "cpu" true.

Lemma C3_eager_init_raises_name_error_witness :
  __init__ module_globals [4; 2] tt "emb" "cpu" false 0%nat
  = (0%nat, Raise (NameError "create_wg_dist_tensor")).
Proof.
  destruct (C3_eager_init_raises_name_error (Svc := recent_service)
              4 2 tt "emb" "cpu" 0%nat) as (Hraise & _ & _).
  apply Hraise. reflexivity.
Defined.

Lemma C4_attach_raises_name_error_witness :
  attach_wg_optimizer module_globals 5%nat (deferred_4_2, 0%nat)
  = ((with_optimizer deferred_4_2 (Some 5%nat), 0%nat),
     Raise (NameError "create_wg_dist_tensor")) ∧
  attach_wg_optimizer module_globals 6%nat
    (with_optimizer deferred_4_2 (Some 5%nat), 0%nat)
  = ((with_optimizer deferred_4_2 (Some 5%nat), 0%nat),
     Raise (RuntimeError OptimizerAlreadyExists)).
Proof.
  destruct (C4_attach_raises_name_error (Svc := recent_service)
              [4; 2] tt "emb" "cpu" 0%nat 0%nat deferred_4_2
              5%nat 6%nat two_indices eq_refl)
    as (_ & _ & _ & Hattach & _ & _ & _ & Hagain).
  exact (conj Hattach Hagain).
Defined.

(** A three-dimensional shape is accepted: no error is raised. *)
Lemma C6_counterexample :
  ¬ (∀ shape : list Z,
       length shape ≠ 2%nat →
       ∃ e, __init__ module_globals shape tt "emb" "cpu" true 0%nat
            = (0%nat, Raise e)).
Proof.
  intros Hclaim. destruct (Hclaim [3; 4; 5]) as [e He]; [done|].
  vm_compute in He. discriminate He.
Qed.

Lemma C6_shape_needs_two_entries_witness :
  __init__ module_globals [3] tt "emb" "cpu" false 0%nat
    = (0%nat, Raise IndexError) ∧
  __init__ module_globals [3; 4; 5] tt "emb" "cpu" true 0%nat
    = (0%nat, Ok (fresh_handle 3 4 tt "emb" "cpu" true)).
Proof.
  split.
  - apply (C6_shape_needs_two_entries (Svc := recent_service)
             module_globals [3] tt "emb" "cpu" false 0%nat). simpl. lia.
  - destruct (C6_shape_needs_two_entries (Svc := recent_service)
                module_globals [3; 4; 5] tt "emb" "cpu" true 0%nat)
      as [_ Hlong].
    destruct (Hlong 3 4 [5] eq_refl eq_refl) as [Hdeferred _].
    exact Hdeferred.
Defined.

End HandleExamples.

(** ** The two conversion paths *)

(** The value of a result, forgetting which exception was raised. *)
Definition val {A} (r : result A) : option A :=
  match r with Ok a => Some a | Raise _ => None end.

Section DictFacts.
Context {V : Type}.
Implicit Types (d : dict V) (k : string).

Lemma dict_find_None k d : dict_find k d = None ↔ k ∉ dict_keys d.
Proof.
  unfold dict_keys. induction d as [|[k' v] d IH]; simpl.
  - split; [intros _; apply not_elem_of_nil|done].
  - destruct (String.eqb k k') eqn:E.
    + apply String.eqb_eq in E as ->. split; [done|].
      intros Hn. exfalso. apply Hn. left.
    + apply String.eqb_neq in E. rewrite IH. rewrite not_elem_of_cons.
      split; [by intros ?|by intros [_ ?]].
Qed.

Lemma dict_mem_false k d : dict_mem k d = false ↔ dict_find k d = None.
Proof.
  unfold dict_mem. rewrite dict_find_None.
  by rewrite bool_decide_eq_false.
Qed.

Lemma dict_mem_true k d : dict_mem k d = true ↔ is_Some (dict_find k d).
Proof.
  rewrite <- not_eq_None_Some, <- dict_mem_false.
  destruct (dict_mem k d); naive_solver.
Qed.

Lemma dict_get_find k d : val (dict_get d k) = dict_find k d.
Proof. unfold dict_get. by destruct (dict_find k d). Qed.

Lemma dict_find_remove_ne k k' d :
  k ≠ k' → dict_find k (dict_remove k' d) = dict_find k d.
Proof.
  intros Hne. unfold dict_remove. induction d as [|[k0 v] d IH]; [done|].
  destruct (decide (k0 = k')) as [->|Hk0].
  - rewrite filter_cons_False by (simpl; auto). simpl.
    destruct (String.eqb k k') eqn:E; [by apply String.eqb_eq in E|done].
  - rewrite filter_cons_True by done. simpl. by rewrite IH.
Qed.

Lemma dict_find_remove_Some k k' d v :
  dict_find k (dict_remove k' d) = Some v → dict_find k d = Some v.
Proof.
  destruct (decide (k = k')) as [->|Hne].
  - intros Hf. assert (dict_find k' (dict_remove k' d) = None) as Hn.
    { apply dict_find_None. unfold dict_keys, dict_remove.
      intros ([k0 v0] & -> & Hin)%list_elem_of_fmap.
      apply list_elem_of_filter in Hin as [Hin _]. by simpl in Hin. }
    congruence.
  - by rewrite dict_find_remove_ne.
Qed.

End DictFacts.

Section ConvertFacts.
Context `{Ext : External}.
Variables (folder file_name : string).

(** The partitions' dictionaries as [load_tensors] returns them, in the
    order of [names]. *)
Definition load_all (fs : gmap string (dict Tensor)) (names : list string)
  : result (list (dict Tensor)) :=
  mapR (λ name,
          match fs !! feat_file_path folder file_name name with
          | Some d => Ok d
          | None => Raise (FileNotFoundError
                             (feat_file_path folder file_name name))
          end) names.

Lemma load_step (name : string) (acc : list (dict Tensor)) (w : World) :
  (letM d := load_tensors (feat_file_path folder file_name name) in
   retM (acc ++ [d])) w
  = (w, match part_fs w !! feat_file_path folder file_name name with
        | Some d => Ok (acc ++ [d])
        | None => Raise (FileNotFoundError
                           (feat_file_path folder file_name name))
        end).
Proof.
  unfold bindM, load_tensors, retM.
  by destruct (part_fs w !! feat_file_path folder file_name name).
Qed.

(** The loading loop of the high-memory path (lines 180-181). *)
Lemma load_loop (names : list string) (acc : list (dict Tensor)) (w : World) :
  for_fold names
    (λ acc name,
       letM d := load_tensors (feat_file_path folder file_name name) in
       retM (acc ++ [d])) acc w
  = (w, letR ds := load_all (part_fs w) names in Ok (acc ++ ds)).
Proof.
  revert acc. induction names as [|name names IH]; intros acc; simpl.
  - by rewrite app_nil_r.
  - unfold bindM at 1. rewrite load_step. unfold load_all. simpl.
    destruct (part_fs w !! feat_file_path folder file_name name) as [d|];
      simpl; [|done].
    rewrite IH. unfold load_all.
    destruct (mapR _ names) as [ds|]; simpl; [|done].
    by rewrite <- app_assoc.
Qed.

(** Lines 218-227 on a loaded dictionary. *)
Definition step_low (feat : string) (st : option Tensor * Z)
    (nfeat : dict Tensor) : result (option Tensor * Z) :=
  if negb (dict_mem feat nfeat)
  then Raise (RuntimeError (UnknownFeature feat (dict_keys nfeat)))
  else
    letR t := dict_get nfeat feat in
    letR acc := match st.1 with
                | None => Ok t
                | Some node_feats_data => th_concat [node_feats_data; t]
                end in
    Ok (Some acc, st.2 + 1).

Fixpoint gather_low (feat : string) (ds : list (dict Tensor))
    (st : option Tensor * Z) : result (option Tensor * Z) :=
  match ds with
  | [] => Ok st
  | d :: ds' => letR st' := step_low feat st d in gather_low feat ds' st'
  end.

Lemma read_feature_low_loaded (feat : string) (st : option Tensor * Z)
    (name : string) (d : dict Tensor) (w : World) :
  part_fs w !! feat_file_path folder file_name name = Some d →
  read_feature_low folder file_name feat st name w = (w, step_low feat st d).
Proof.
  intros Hd. unfold read_feature_low, step_low, bindM, load_tensors, liftR.
  rewrite Hd. destruct (dict_mem feat d); simpl; [|done].
  destruct (dict_get d feat) as [t|]; simpl; [|done].
  destruct st.1 as [acc|]; simpl; [|done].
  by destruct (th_concat [acc; t]).
Qed.

Lemma read_feature_low_missing (feat : string) (st : option Tensor * Z)
    (name : string) (w : World) :
  part_fs w !! feat_file_path folder file_name name = None →
  read_feature_low folder file_name feat st name w
  = (w, Raise (FileNotFoundError (feat_file_path folder file_name name))).
Proof.
  intros Hd. unfold read_feature_low, bindM, load_tensors. by rewrite Hd.
Qed.

(** The loop over the partitions of the low-memory path (lines 216-227). *)
Lemma low_loop_loaded (feat : string) (names : list string)
    (ds : list (dict Tensor)) (st : option Tensor * Z) (w : World) :
  load_all (part_fs w) names = Ok ds →
  for_fold names (read_feature_low folder file_name feat) st w
  = (w, gather_low feat ds st).
Proof.
  revert ds st. induction names as [|name names IH]; intros ds st; simpl.
  - by intros [= <-].
  - unfold load_all in *. simpl.
    destruct (part_fs w !! feat_file_path folder file_name name) as [d|] eqn:Ed; simpl; [|done].
    destruct (mapR _ names) as [ds'|] eqn:Eds; simpl; [|done].
    intros [= <-]. unfold bindM.
    rewrite (read_feature_low_loaded _ _ _ d) by done. simpl.
    destruct (step_low feat st d) as [st'|]; simpl; [|done].
    by apply IH.
Qed.

Lemma low_loop_not_loaded (feat : string) (names : list string)
    (st : option Tensor * Z) (w : World) :
  val (load_all (part_fs w) names) = None →
  (for_fold names (read_feature_low folder file_name feat) st w).1 = w ∧
  val (for_fold names (read_feature_low folder file_name feat) st w).2 = None.
Proof.
  revert st. induction names as [|name names IH]; intros st; simpl; [done|].
  unfold load_all in *. simpl.
  destruct (part_fs w !! feat_file_path folder file_name name) as [d|] eqn:Ed; simpl.
  - destruct (mapR _ names) as [ds'|] eqn:Eds; simpl; [done|].
    intros _. unfold bindM.
    rewrite (read_feature_low_loaded _ _ _ d) by done.
    destruct (step_low feat st d) as [st'|]; simpl; [|done].
    by apply IH.
  - intros _. unfold bindM. by rewrite read_feature_low_missing.
Qed.

(** Lines 186-194 on the loaded dictionaries: the tensor handed to the
    resharder. *)
Definition gather_high (feat : string) (feats_data : list (dict Tensor))
  : result Tensor :=
  letR first := list_get feats_data 0 in
  if negb (dict_mem feat first)
  then Raise (RuntimeError (UnknownFeature feat (dict_keys first)))
  else
    letR ts := mapR (λ t, dict_get t feat) feats_data in
    th_concat ts.

Lemma convert_feature_high_unfold (wg_folder : string) (num_parts : Z)
    (feats_data : list (dict Tensor)) (feat : string) (w : World) :
  convert_feature_high wg_folder num_parts feats_data feat w =
    match gather_high feat feats_data with
    | Raise e => (w, Raise e)
    | Ok whole =>
        match mapR (λ t, dict_del t feat) feats_data with
        | Raise e => (w, Raise e)
        | Ok feats_data' =>
            ((wholegraph_processing whole feat wg_folder num_parts w).1,
             letR _u :=
               (wholegraph_processing whole feat wg_folder num_parts w).2 in
             Ok feats_data')
        end
    end.
Proof.
  unfold convert_feature_high, gather_high, bindM, liftR, retM.
  destruct (list_get feats_data 0) as [first|]; simpl; [|done].
  destruct (dict_mem feat first); simpl; [|done].
  destruct (mapR _ feats_data) as [ts|]; simpl; [|done].
  destruct (th_concat ts) as [whole|]; simpl; [|done].
  destruct (mapR (λ t, dict_del t feat) feats_data); simpl; [|done].
  by destruct (wholegraph_processing _ _ _ _ _) as [w' [[]|e]].
Qed.

Lemma convert_feature_low_unfold (wg_folder : string) (names : list string)
    (ds : list (dict Tensor)) (feat : string) (w : World) :
  load_all (part_fs w) names = Ok ds →
  convert_feature_low wg_folder folder file_name names feat w =
    match gather_low feat ds (None, 0) with
    | Raise e => (w, Raise e)
    | Ok (None, _) => (w, Raise (UnboundLocalError "nfeat"))
    | Ok (Some whole, n) =>
        wholegraph_processing whole feat wg_folder n w
    end.
Proof.
  intros Hds. unfold convert_feature_low, bindM.
  rewrite (low_loop_loaded _ _ ds) by done.
  destruct (gather_low feat ds (None, 0)) as [[[whole|] n]|]; done.
Qed.

End ConvertFacts.

Section Gathering.
Context `{Ext : External}.

(** The tensors of [feat] in all the dictionaries, when each has one. *)
Fixpoint find_all (feat : string) (ds : list (dict Tensor))
  : option (list Tensor) :=
  match ds with
  | [] => Some []
  | d :: ds' =>
      match dict_find feat d, find_all feat ds' with
      | Some t, Some ts => Some (t :: ts)
      | _, _ => None
      end
  end.

(** Concatenating one tensor at a time from the left, as the loop of the
    low-memory path does. *)
Fixpoint concat_left (acc : Tensor) (ts : list Tensor) : result Tensor :=
  match ts with
  | [] => Ok acc
  | t :: ts' => letR acc' := th_concat [acc; t] in concat_left acc' ts'
  end.

(** What the equivalence of the two paths asks of [th.concat]:
    concatenating a non-empty tuple at once gives the tensor that
    concatenating its elements one by one from the left gives, a
    one-element tuple giving back its element, and raises when that
    raises. *)
Definition concat_is_left_nested : Prop :=
  ∀ t ts, val (th_concat (t :: ts)) = val (concat_left t ts).

Lemma mapR_get_val (feat : string) (ds : list (dict Tensor)) :
  val (mapR (λ t, dict_get t feat) ds) = find_all feat ds.
Proof.
  induction ds as [|d ds IH]; simpl; [done|].
  rewrite <- IH, <- dict_get_find.
  destruct (dict_get d feat); simpl; [|done].
  by destruct (mapR _ ds).
Qed.

Lemma find_all_length (feat : string) (ds : list (dict Tensor)) ts :
  find_all feat ds = Some ts → length ts = length ds.
Proof.
  revert ts. induction ds as [|d ds IH]; intros ts; simpl.
  - by intros [= <-].
  - destruct (dict_find feat d); [|done].
    destruct (find_all feat ds) as [ts'|]; [|done].
    intros [= <-]. simpl. by rewrite (IH ts').
Qed.

Lemma gather_high_val (feat : string) (fd : list (dict Tensor)) :
  val (gather_high feat fd) =
    match find_all feat fd with
    | Some (t :: ts) => val (th_concat (t :: ts))
    | _ => None
    end.
Proof.
  unfold gather_high. destruct fd as [|d fd]; [done|].
  rewrite list_get_0. simpl.
  pose proof (mapR_get_val feat fd) as Hval.
  destruct (dict_mem feat d) eqn:Em; simpl.
  - apply dict_mem_true in Em as [t Ht]. unfold dict_get. rewrite Ht. simpl.
    destruct (mapR _ fd) as [ts|]; simpl in *; by rewrite <- Hval.
  - apply dict_mem_false in Em. by rewrite Em.
Qed.

Lemma gather_low_some (feat : string) (ds : list (dict Tensor))
    (a : Tensor) (n : Z) :
  val (gather_low feat ds (Some a, n)) =
    match find_all feat ds with
    | Some ts =>
        match val (concat_left a ts) with
        | Some a' => Some (Some a', n + Z.of_nat (length ds))
        | None => None
        end
    | None => None
    end.
Proof.
  revert a n. induction ds as [|d ds IH]; intros a n.
  - simpl. do 2 f_equal. lia.
  - simpl. unfold step_low.
    destruct (dict_mem feat d) eqn:Em; simpl negb; cbv iota.
    + apply dict_mem_true in Em as [t Ht]. unfold dict_get. rewrite Ht.
      simpl. destruct (th_concat [a; t]) as [a1|] eqn:Ec; simpl.
      * rewrite IH. destruct (find_all feat ds) as [ts|]; [|done].
        simpl. rewrite Ec. simpl.
        destruct (val (concat_left a1 ts)); [|done].
        do 2 f_equal. lia.
      * destruct (find_all feat ds) as [ts|]; [|done].
        simpl. by rewrite Ec.
    + apply dict_mem_false in Em. by rewrite Em.
Qed.

Lemma gather_low_none (feat : string) (ds : list (dict Tensor)) (n : Z) :
  val (gather_low feat ds (None, n)) =
    match find_all feat ds with
    | Some [] => Some (None, n)
    | Some (t :: ts) =>
        match val (concat_left t ts) with
        | Some a' => Some (Some a', n + Z.of_nat (length ds))
        | None => None
        end
    | None => None
    end.
Proof.
  destruct ds as [|d ds]; [done|].
  simpl. unfold step_low.
  destruct (dict_mem feat d) eqn:Em; simpl negb; cbv iota.
  - apply dict_mem_true in Em as [t Ht]. unfold dict_get. rewrite Ht.
    simpl. rewrite gather_low_some.
    destruct (find_all feat ds) as [ts|]; [|done].
    destruct (val (concat_left t ts)); [|done].
    do 2 f_equal. lia.
  - apply dict_mem_false in Em. by rewrite Em.
Qed.

(** The tensor and partition count the low-memory path hands to the
    resharder are those of the high-memory path. *)
Lemma gather_agree (feat : string) (fd ds : list (dict Tensor)) :
  concat_is_left_nested →
  find_all feat fd = find_all feat ds →
  match gather_high feat fd with
  | Ok whole =>
      gather_low feat ds (None, 0) = Ok (Some whole, Z.of_nat (length ds))
  | Raise _ =>
      match gather_low feat ds (None, 0) with
      | Ok (Some _, _) => False
      | _ => True
      end
  end.
Proof.
  intros Hlaw Hfind.
  pose proof (gather_high_val feat fd) as Hh.
  pose proof (gather_low_none feat ds 0) as Hl.
  rewrite Hfind in Hh.
  destruct (find_all feat ds) as [[|t ts]|].
  - destruct (gather_high feat fd); [done|].
    by destruct (gather_low feat ds (None, 0)) as [[[a|] n]|].
  - rewrite Hlaw in Hh.
    destruct (gather_high feat fd) as [whole|]; simpl in Hh.
    + rewrite <- Hh in Hl.
      destruct (gather_low feat ds (None, 0)) as [st|]; [|done].
      simpl in Hl. by injection Hl as ->.
    + rewrite <- Hh in Hl.
      by destruct (gather_low feat ds (None, 0)) as [[[a|] n]|].
  - destruct (gather_high feat fd); [done|].
    by destruct (gather_low feat ds (None, 0)) as [[[a|] n]|].
Qed.

Lemma find_all_remove_ne (k f : string) (fd : list (dict Tensor)) :
  k ≠ f → find_all k (dict_remove f <$> fd) = find_all k fd.
Proof.
  intros Hne. induction fd as [|d fd IH]; [done|].
  rewrite fmap_cons. cbn [find_all]. by rewrite IH, dict_find_remove_ne.
Qed.

(** [del t[feat]] for every partition, when each holds the feature. *)
Lemma del_all (feat : string) (fd : list (dict Tensor)) :
  is_Some (find_all feat fd) →
  mapR (λ t, dict_del t feat) fd = Ok (dict_remove feat <$> fd).
Proof.
  induction fd as [|d fd IH]; simpl; [done|].
  destruct (dict_find feat d) as [t|] eqn:Ed; [|by intros [? [=]]].
  destruct (find_all feat fd) as [ts|]; [|by intros [? [=]]].
  intros _. unfold dict_del at 1.
  rewrite (proj2 (dict_mem_true feat d)) by by eexists.
  simpl. rewrite IH by by eexists. done.
Qed.

Lemma gather_high_ok_find (feat : string) (fd : list (dict Tensor)) whole :
  gather_high feat fd = Ok whole → is_Some (find_all feat fd).
Proof.
  intros Hg. pose proof (gather_high_val feat fd) as Hv. rewrite Hg in Hv.
  simpl in Hv. destruct (find_all feat fd); [by eexists|done].
Qed.

End Gathering.

(** ** Equivalence of the two paths *)

Section Equivalence.
Context `{Ext : External}.
Variables (folder file_name : string).

(** Same metadata, same shard files, same log of shard writes. *)
Definition same_outputs (w w' : World) : Prop :=
  metadata w' = metadata w ∧
  wg_files w' = wg_files w ∧
  shard_log w' = shard_log w.

Lemma same_outputs_refl (w : World) : same_outputs w w.
Proof. done. Qed.

Lemma same_outputs_trans (w1 w2 w3 : World) :
  same_outputs w1 w2 → same_outputs w2 w3 → same_outputs w1 w3.
Proof. unfold same_outputs. intros (?&?&?) (?&?&?). repeat split; congruence. Qed.

Lemma trim_feat_files_outputs (trimmed_feats : PyFeats) (part : Z) (w : World) :
  same_outputs w (trim_feat_files trimmed_feats folder file_name part w).1.
Proof.
  unfold trim_feat_files, bindM, liftR.
  destruct (subscript_int trimmed_feats part) as [d|]; [|done].
  unfold save_tensors, os_rename. simpl.
  destruct (<[_ := d]> (part_fs w) !! _) as [orig|]; simpl; [|done].
  destruct (<[_ := orig]> _ !! _); done.
Qed.

Lemma trims_outputs (feats_data : list (dict Tensor)) (parts : list Z)
    (w : World) :
  same_outputs w
    (for_each parts (trim_feat_files (FeatList feats_data) folder file_name)
       w).1.
Proof.
  apply (for_each_rel same_outputs same_outputs_refl same_outputs_trans).
  intros part s. apply trim_feat_files_outputs.
Qed.

Lemma final_pass_outputs (fname_dict : dict (list string))
    (names : list string) (n : Z) (w : World) :
  same_outputs w
    (for_fold names (trim_partition_low fname_dict folder file_name) n w).1.
Proof.
  apply (for_fold_rel same_outputs same_outputs_refl same_outputs_trans).
  intros v name s.
  destruct (trim_partition_low_raises fname_dict folder file_name v name s)
    as [-> _].
  done.
Qed.

(** The outputs of either path are those of its conversion loop. *)
Lemma convert_high_outputs (fname_dict : dict (list string))
    (names : list string) (ds : list (dict Tensor)) (w : World) :
  load_all folder file_name (part_fs w) names = Ok ds →
  same_outputs
    (for_fold (requested_keys fname_dict)
       (convert_feature_high (path_join folder "wholegraph")
          (Z.of_nat (length ds))) ds w).1
    (convert_high fname_dict file_name folder names w).1.
Proof.
  intros Hl. unfold convert_high. unfold bindM at 1.
  rewrite load_loop, Hl. simpl. unfold bindM.
  destruct (for_fold _ _ ds w) as [w1 [fd|e]]; simpl; [|done].
  apply trims_outputs.
Qed.

Lemma convert_low_outputs (fname_dict : dict (list string))
    (names : list string) (w : World) :
  same_outputs
    (for_each (requested_keys fname_dict)
       (convert_feature_low (path_join folder "wholegraph") folder file_name
          names) w).1
    (convert_low fname_dict file_name folder names w).1.
Proof.
  unfold convert_low. unfold bindM at 1.
  destruct (for_each _ _ w) as [w1 [[]|e]]; simpl; [|done].
  unfold bindM.
  pose proof (final_pass_outputs fname_dict names 0 w1) as Hf.
  by destruct (for_fold names _ 0 w1) as [w2 [n|e]].
Qed.

(** With a partition file that does not load, the conversion loop of the
    low-memory path leaves the world as it is. *)
Lemma low_not_loaded (wg : string) (names : list string) (ks : list string)
    (w : World) :
  val (load_all folder file_name (part_fs w) names) = None →
  (for_each ks (convert_feature_low wg folder file_name names) w).1 = w.
Proof.
  intros Hl. destruct ks as [|k ks]; [done|]. simpl. unfold bindM.
  unfold convert_feature_low at 1. unfold bindM.
  destruct (low_loop_not_loaded folder file_name k names (None, 0) w Hl)
    as [Hw Hr].
  destruct (for_fold names _ (None, 0) w) as [w1 [st|e]]; simpl in *; done.
Qed.

(** Key by key, the two loops reach the same world. *)
Lemma paths_agree (wg : string) (names : list string)
    (ds : list (dict Tensor)) (ks : list string) :
  concat_is_left_nested →
  NoDup ks →
  ∀ (fd : list (dict Tensor)) (w : World),
    (∀ k, k ∈ ks → find_all k fd = find_all k ds) →
    load_all folder file_name (part_fs w) names = Ok ds →
    (for_fold ks (convert_feature_high wg (Z.of_nat (length ds))) fd w).1
    = (for_each ks (convert_feature_low wg folder file_name names) w).1.
Proof.
  intros Hlaw. induction ks as [|f ks IH]; intros Hnd fd w Hagree Hl;
    [done|].
  apply NoDup_cons in Hnd as [Hf Hnd]. simpl. unfold bindM.
  rewrite convert_feature_high_unfold.
  rewrite (convert_feature_low_unfold folder file_name wg names ds) by done.
  pose proof (gather_agree f fd ds Hlaw (Hagree f ltac:(left))) as Hg.
  destruct (gather_high f fd) as [whole|] eqn:Eh.
  - rewrite Hg. rewrite del_all by (by eapply gather_high_ok_find).
    pose proof (wholegraph_processing_part_fs whole f wg
                  (Z.of_nat (length ds)) w) as Hfs.
    destruct (wholegraph_processing whole f wg (Z.of_nat (length ds)) w)
      as [w' [[]|e]]; simpl in *; [|done].
    apply IH; [done| |by rewrite Hfs].
    intros k Hk. rewrite find_all_remove_ne; [apply Hagree; by right|].
    intros ->. done.
  - destruct (gather_low f ds (None, 0)) as [[[a|] n]|]; done.
Qed.

End Equivalence.

(** *** Claim C2 *)

Section PathsTheorem.
Context `{Ext : External}.

(** C2 as the code has it.  When the requested keys are pairwise distinct
    and [th.concat] of the partitions' tensors at once agrees with their
    concatenation one at a time, the high-memory and the low-memory run on
    the same input end with the same metadata, the same shard files and
    the same sequence of shard writes, whether they return or raise. *)
Theorem C2_paths_same_outputs (fname_dict : dict (list string))
    (file_name folder : string) (listing : list (string * bool))
    (w : World) :
  concat_is_left_nested →
  NoDup (requested_keys fname_dict) →
  metadata
    (convert_feat_to_wholegraph fname_dict file_name folder true listing w).1
  = metadata
      (convert_feat_to_wholegraph fname_dict file_name folder false listing
         w).1 ∧
  wg_files
    (convert_feat_to_wholegraph fname_dict file_name folder true listing w).1
  = wg_files
      (convert_feat_to_wholegraph fname_dict file_name folder false listing
         w).1 ∧
  shard_log
    (convert_feat_to_wholegraph fname_dict file_name folder true listing w).1
  = shard_log
      (convert_feat_to_wholegraph fname_dict file_name folder false listing
         w).1.
Proof.
  intros Hlaw Hnd.
  change (same_outputs
    (convert_feat_to_wholegraph fname_dict file_name folder false listing w).1
    (convert_feat_to_wholegraph fname_dict file_name folder true listing w).1).
  unfold convert_feat_to_wholegraph, bindM, liftR.
  destruct (part_files listing) as [names|]; simpl; [|done].
  pose proof (convert_low_outputs folder file_name fname_dict names w) as Hlow.
  destruct (load_all folder file_name (part_fs w) names) as [ds|] eqn:El.
  - pose proof (convert_high_outputs folder file_name fname_dict names ds w El)
      as Hhigh.
    rewrite (paths_agree folder file_name _ names ds _ Hlaw Hnd ds w) in Hhigh
      by done.
    destruct Hhigh as (Hm & Hf & Hs). destruct Hlow as (Hm' & Hf' & Hs').
    repeat split; congruence.
  - rewrite low_not_loaded in Hlow by (by rewrite El).
    assert (convert_high fname_dict file_name folder names w
            = (w, Raise e)) as ->; [|done].
    unfold convert_high. unfold bindM at 1. by rewrite load_loop, El.
Qed.

End PathsTheorem.

Section PathsExamples.
#[local] Existing Instance Toy.plain.

Lemma toy_concat_left (t : Tensor) (ts : list Tensor) :
  concat_left t ts = Ok (t ++ concat ts).
Proof.
  revert t. induction ts as [|t1 ts IH]; intros t; simpl.
  - by rewrite app_nil_r.
  - rewrite IH. by rewrite app_nil_r, <- app_assoc.
Qed.

Lemma toy_concat_is_left_nested : concat_is_left_nested.
Proof. intros t ts. by rewrite toy_concat_left. Qed.

(** Two partitions holding features [x] (width 2) and [y] (width 1). *)
Definition two_partitions : World :=
  Toy.world
    (<[ "data/part0/node_feat.dgl" :=
          [("node/x", [[1; 2]; [3; 4]]); ("node/y", [[5]; [6]])] ]>
     {[ "data/part1/node_feat.dgl" :=
          [("node/x", [[7; 8]]); ("node/y", [[9]])] ]}).

Definition two_part_dirs : list (string * bool) :=
  [("part1", true); ("part0", true); ("wholegraph", true)].

(** A request naming [x] twice: the high-memory path has deleted [x] from
    its dictionaries when it meets it again and stops there, the
    low-memory path reloads the files and goes on to convert [y]. *)
Lemma C2_counterexample :
  metadata
    (convert_feat_to_wholegraph [("node", ["x"; "x"; "y"])] "node_feat.dgl"
       "data" true two_part_dirs two_partitions).1
  ≠ metadata
      (convert_feat_to_wholegraph [("node", ["x"; "x"; "y"])] "node_feat.dgl"
         "data" false two_part_dirs two_partitions).1.
Proof.
  intros Heq. apply (f_equal (λ m, m !! "node/y")) in Heq.
  vm_compute in Heq. discriminate Heq.
Qed.

Lemma C2_paths_same_outputs_witness :
  metadata
    (convert_feat_to_wholegraph [("node", ["x"; "y"])] "node_feat.dgl"
       "data" true two_part_dirs two_partitions).1
  = metadata
      (convert_feat_to_wholegraph [("node", ["x"; "y"])] "node_feat.dgl"
         "data" false two_part_dirs two_partitions).1 ∧
  wg_files
    (convert_feat_to_wholegraph [("node", ["x"; "y"])] "node_feat.dgl"
       "data" true two_part_dirs two_partitions).1
  = wg_files
      (convert_feat_to_wholegraph [("node", ["x"; "y"])] "node_feat.dgl"
         "data" false two_part_dirs two_partitions).1.
Proof.
  destruct (C2_paths_same_outputs (Ext := Toy.plain)
              [("node", ["x"; "y"])] "node_feat.dgl" "data" two_part_dirs
              two_partitions toy_concat_is_left_nested)
    as (Hm & Hf & _).
  - apply (bool_decide_unpack _). by vm_compute.
  - exact (conj Hm Hf).
Defined.

End PathsExamples.

(** ** A requested key missing from a partition *)

Section MissingKey.
Context `{Ext : External}.
Variables (folder file_name : string).

(** Nothing of [feat] has been written between [w] and [w']: its metadata
    entry is the same and every shard write of [feat] in the log was there
    before. *)
Definition untouched (feat : string) (w w' : World) : Prop :=
  metadata w' !! feat = metadata w !! feat ∧
  ∀ sw, sw ∈ shard_log w' → sw_feat sw = feat → sw ∈ shard_log w.

Lemma untouched_refl (feat : string) (w : World) : untouched feat w w.
Proof. done. Qed.

Lemma untouched_trans (feat : string) (w1 w2 w3 : World) :
  untouched feat w1 w2 → untouched feat w2 w3 → untouched feat w1 w3.
Proof.
  intros [Hm1 Hl1] [Hm2 Hl2]. split; [congruence|].
  intros sw Hsw Hf. apply Hl1; [|done]. by apply Hl2.
Qed.

Lemma same_outputs_untouched (feat : string) (w w' : World) :
  same_outputs w w' → untouched feat w w'.
Proof. intros (Hm & _ & Hl). split; [by rewrite Hm|]. by rewrite Hl. Qed.

(** Every write added to the log is a write of [f]. *)
Definition logs_only (f : string) (w w' : World) : Prop :=
  ∀ sw, sw ∈ shard_log w' → sw ∈ shard_log w ∨ sw_feat sw = f.

Lemma logs_only_refl (f : string) (w : World) : logs_only f w w.
Proof. intros sw Hsw. by left. Qed.

Lemma logs_only_trans (f : string) (w1 w2 w3 : World) :
  logs_only f w1 w2 → logs_only f w2 w3 → logs_only f w1 w3.
Proof.
  intros H1 H2 sw Hsw. destruct (H2 sw Hsw) as [Hin|Hf]; [|by right].
  by apply H1.
Qed.

Lemma write_shard_logs_only (whole : Tensor) (f wg : string) (n : Z)
    (comm : Comm) (rows size j : Z) (w : World) :
  logs_only f w (write_shard whole f wg n comm rows size j w).1.
Proof.
  unfold write_shard, bindM, liftR.
  destruct (shard_to_file _ _ _ _ _ _ _ _) as [[[sw0 c] t]|e] eqn:E; simpl;
    [|apply logs_only_refl].
  apply shard_to_file_feat in E as [Hf _].
  assert (logs_only f w (put_shard sw0 c w).1) as Hput.
  { intros sw. simpl. rewrite elem_of_app, list_elem_of_singleton.
    intros [Hin| ->]; [by left|by right]. }
  by destruct (destroy_wholememory_tensor t).
Qed.

Lemma wholegraph_processing_untouched (whole : Tensor) (f feat wg : string)
    (n : Z) (w : World) :
  f ≠ feat →
  untouched feat w (wholegraph_processing whole f wg n w).1.
Proof.
  intros Hne. split.
  - rewrite wholegraph_processing_metadata. by rewrite lookup_insert_ne.
  - assert (logs_only f w (wholegraph_processing whole f wg n w).1) as Hlog.
    { unfold wholegraph_processing, bindM, liftR. simpl.
      destruct get_local_device_communicator as [comm|]; simpl;
        [|by left].
      destruct (list_get (tensor_shape whole) 0) as [rows|]; simpl;
        [|by left].
      destruct (floordiv rows (- n)) as [q|]; simpl; [|by left].
      apply (logs_only_trans f _
               (set_metadata f (whole_meta whole) w).1); [by left|].
      apply (for_each_rel (logs_only f) (logs_only_refl f)
               (logs_only_trans f)).
      intros j s. apply write_shard_logs_only. }
    intros sw Hsw Hf. destruct (Hlog sw Hsw) as [Hin|Hf']; [done|].
    congruence.
Qed.

(** The high-memory loop when some dictionary lacks [feat]. *)
Lemma high_loop_missing (feat wg : string) (n : Z) (ks : list string) :
  ∀ (fd : list (dict Tensor)) (w : World),
    find_all feat fd = None →
    untouched feat w (for_fold ks (convert_feature_high wg n) fd w).1 ∧
    (feat ∈ ks →
     is_ok (for_fold ks (convert_feature_high wg n) fd w).2 = false).
Proof.
  induction ks as [|f ks IH]; intros fd w Hnone.
  - split; [done|]. by intros ?%elem_of_nil.
  - simpl. unfold bindM. rewrite convert_feature_high_unfold.
    destruct (gather_high f fd) as [whole|] eqn:Eh; [|done].
    assert (f ≠ feat) as Hne.
    { intros ->. apply gather_high_ok_find in Eh as [ts Hts]. congruence. }
    rewrite del_all by (by eapply gather_high_ok_find).
    pose proof (wholegraph_processing_untouched whole f feat wg n w Hne)
      as Hu.
    destruct (wholegraph_processing whole f wg n w) as [w' [[]|e]];
      simpl in *; [|done].
    destruct (IH (dict_remove f <$> fd) w') as [Hu' Hr'].
    { by rewrite find_all_remove_ne. }
    split; [by eapply untouched_trans|].
    intros [->|Hin]%elem_of_cons; [done|by apply Hr'].
Qed.

(** The low-memory loop when some partition file lacks [feat]. *)
Lemma low_loop_missing (feat wg : string) (names : list string)
    (ds : list (dict Tensor)) (ks : list string) :
  find_all feat ds = None →
  ∀ w : World,
    load_all folder file_name (part_fs w) names = Ok ds →
    untouched feat w
      (for_each ks (convert_feature_low wg folder file_name names) w).1 ∧
    (feat ∈ ks →
     is_ok (for_each ks (convert_feature_low wg folder file_name names) w).2
     = false).
Proof.
  intros Hnone. induction ks as [|f ks IH]; intros w Hl.
  - split; [done|]. by intros ?%elem_of_nil.
  - simpl. unfold bindM.
    rewrite (convert_feature_low_unfold folder file_name wg names ds) by done.
    pose proof (gather_low_none feat ds 0) as Hv. rewrite Hnone in Hv.
    destruct (gather_low f ds (None, 0)) as [[[whole|] m]|] eqn:Eg;
      [|done|done].
    assert (f ≠ feat) as Hne.
    { intros ->. by rewrite Eg in Hv. }
    pose proof (wholegraph_processing_untouched whole f feat wg m w Hne)
      as Hu.
    pose proof (wholegraph_processing_part_fs whole f wg m w) as Hfs.
    destruct (wholegraph_processing whole f wg m w) as [w' [[]|e]];
      simpl in *; [|done].
    destruct (IH w') as [Hu' Hr']; [by rewrite Hfs|].
    split; [by eapply untouched_trans|].
    intros [->|Hin]%elem_of_cons; [done|by apply Hr'].
Qed.

Lemma load_all_elem (fs : gmap string (dict Tensor)) (names : list string)
    (ds : list (dict Tensor)) (name : string) (d : dict Tensor) :
  load_all folder file_name fs names = Ok ds →
  name ∈ names →
  fs !! feat_file_path folder file_name name = Some d →
  d ∈ ds.
Proof.
  revert ds. unfold load_all.
  induction names as [|name' names IH]; intros ds; simpl.
  - by intros _ ?%elem_of_nil.
  - destruct (fs !! feat_file_path folder file_name name') as [d'|] eqn:Ed';
      simpl; [|done].
    destruct (mapR _ names) as [ds'|]; simpl; [|done].
    intros [= <-] [->|Hin]%elem_of_cons Hd.
    + rewrite Ed' in Hd. injection Hd as ->. left.
    + right. by apply IH.
Qed.

Lemma find_all_lacking (feat : string) (ds : list (dict Tensor))
    (d : dict Tensor) :
  d ∈ ds → dict_mem feat d = false → find_all feat ds = None.
Proof.
  intros Hin Hmem. apply dict_mem_false in Hmem.
  induction ds as [|d' ds IH]; [by apply elem_of_nil in Hin|].
  apply elem_of_cons in Hin as [<-|Hin]; simpl.
  - by rewrite Hmem.
  - rewrite IH by done. by destruct (dict_find feat d').
Qed.

Lemma convert_high_loaded (fname_dict : dict (list string))
    (names : list string) (ds : list (dict Tensor)) (w : World) :
  load_all folder file_name (part_fs w) names = Ok ds →
  convert_high fname_dict file_name folder names w =
    bindM (for_fold (requested_keys fname_dict)
             (convert_feature_high (path_join folder "wholegraph")
                (Z.of_nat (length ds))) ds)
          (λ fd, for_each (range (Z.of_nat (length ds)))
                   (trim_feat_files (FeatList fd) folder file_name)) w.
Proof.
  intros El. unfold convert_high. unfold bindM at 1.
  by rewrite load_loop, El.
Qed.

(** A partition file that does not load stops the high-memory path before
    anything is converted. *)
Lemma convert_high_not_loaded (fname_dict : dict (list string))
    (names : list string) (e : exn) (w : World) :
  load_all folder file_name (part_fs w) names = Raise e →
  convert_high fname_dict file_name folder names w = (w, Raise e).
Proof.
  intros El. unfold convert_high. unfold bindM at 1.
  by rewrite load_loop, El.
Qed.

(** When its conversion loop raises, the low-memory path stops there. *)
Lemma convert_low_loop_raises (fname_dict : dict (list string))
    (names : list string) (w : World) :
  is_ok (for_each (requested_keys fname_dict)
           (convert_feature_low (path_join folder "wholegraph") folder
              file_name names) w).2 = false →
  convert_low fname_dict file_name folder names w
  = for_each (requested_keys fname_dict)
      (convert_feature_low (path_join folder "wholegraph") folder file_name
         names) w.
Proof.
  intros Hr. unfold convert_low, bindM.
  destruct (for_each _ _ w) as [w1 [[]|e]]; simpl in *; [discriminate|done].
Qed.

Lemma low_loop_not_loaded_raises (wg : string) (names ks : list string)
    (w : World) :
  val (load_all folder file_name (part_fs w) names) = None →
  (for_each ks (convert_feature_low wg folder file_name names) w).1 = w ∧
  (ks ≠ [] →
   is_ok (for_each ks (convert_feature_low wg folder file_name names) w).2
   = false).
Proof.
  intros Hl. destruct ks as [|k ks]; [done|]. simpl. unfold bindM.
  unfold convert_feature_low at 1 3. unfold bindM.
  destruct (low_loop_not_loaded folder file_name k names (None, 0) w Hl)
    as [Hw Hr].
  destruct (for_fold names _ (None, 0) w) as [w1 [st|e]]; simpl in *; done.
Qed.

(** Either path, when a partition file that loads lacks a requested key:
    the call raises and nothing of the key is written. *)
Lemma missing_key_not_converted (fname_dict : dict (list string))
    (use_low_mem : bool) (names : list string) (w : World)
    (feat name : string) (d : dict Tensor) :
  feat ∈ requested_keys fname_dict →
  name ∈ names →
  part_fs w !! feat_file_path folder file_name name = Some d →
  dict_mem feat d = false →
  let run :=
    (if negb use_low_mem
     then convert_high fname_dict file_name folder names
     else convert_low fname_dict file_name folder names) w in
  is_ok run.2 = false ∧ untouched feat w run.1.
Proof.
  intros Hreq Hname Hd Hmem run. subst run.
  destruct (load_all folder file_name (part_fs w) names) as [ds|e] eqn:El.
  - assert (find_all feat ds = None) as Hnone.
    { eapply find_all_lacking; [|done]. by eapply load_all_elem. }
    destruct use_low_mem; simpl.
    + destruct (low_loop_missing feat (path_join folder "wholegraph")
                  names ds (requested_keys fname_dict) Hnone w El)
        as [Hu Hr].
      specialize (Hr Hreq). by rewrite convert_low_loop_raises.
    + destruct (high_loop_missing feat (path_join folder "wholegraph")
                  (Z.of_nat (length ds)) (requested_keys fname_dict) ds w
                  Hnone) as [Hu Hr].
      specialize (Hr Hreq). rewrite (convert_high_loaded _ _ ds) by done.
      unfold bindM.
      destruct (for_fold _ _ ds w) as [w1 [fd|e]]; simpl in *;
        [discriminate|by split].
  - destruct use_low_mem; simpl.
    + destruct (low_loop_not_loaded_raises (path_join folder "wholegraph")
                  names (requested_keys fname_dict) w) as [Hw Hr].
      { by rewrite El. }
      assert (requested_keys fname_dict ≠ []) as Hne.
      { intros Heq. rewrite Heq in Hreq. by apply elem_of_nil in Hreq. }
      specialize (Hr Hne). rewrite convert_low_loop_raises by done.
      by rewrite Hw.
    + by rewrite (convert_high_not_loaded _ _ e).
Qed.

End MissingKey.

(** *** Claim C7 *)

Section MissingKeyTheorem.
Context `{Ext : External}.

Lemma mapR_get_lacking (feat : string) (l : list (dict Tensor))
    (d : dict Tensor) :
  d ∈ l → dict_mem feat d = false →
  mapR (λ t, dict_get t feat) l = Raise (KeyError feat).
Proof.
  intros Hin Hmem. apply dict_mem_false in Hmem.
  induction l as [|d' l IH]; [by apply elem_of_nil in Hin|].
  simpl. unfold dict_get at 1.
  destruct (dict_find feat d') as [t|] eqn:Ed'; [|done].
  apply elem_of_cons in Hin as [->|Hin]; [congruence|].
  simpl. by rewrite IH.
Qed.

Lemma for_fold_app {S A L} (l k : list A) (body : L → A → ST S L) (v : L)
    (s : S) :
  for_fold (l ++ k) body v s = bindM (for_fold l body v) (for_fold k body) s.
Proof.
  revert v s. induction l as [|x l IH]; intros v s; simpl; [done|].
  unfold bindM. destruct (body v x s) as [s' [v'|e]]; [|done].
  by rewrite IH.
Qed.

Lemma gather_low_app (feat : string) (l1 l2 : list (dict Tensor))
    (st : option Tensor * Z) :
  gather_low feat (l1 ++ l2) st
  = bindR (gather_low feat l1 st) (gather_low feat l2).
Proof.
  revert st. induction l1 as [|d l1 IH]; intros st; simpl; [done|].
  destruct (step_low feat st d) as [st'|]; simpl; [apply IH|done].
Qed.

(** A partition's dictionary once the keys [ks] have been deleted from
    it, as lines 196-197 do after each conversion. *)
Definition strip (ks : list string) (d : dict Tensor) : dict Tensor :=
  foldl (λ d k, dict_remove k d) d ks.

Lemma dict_keys_remove (k : string) (d : dict Tensor) :
  dict_keys (dict_remove k d) = filter (λ k', k' ≠ k) (dict_keys d).
Proof.
  unfold dict_keys, dict_remove. induction d as [|[k0 v] d IH]; [done|].
  rewrite fmap_cons. simpl. destruct (decide (k0 = k)) as [->|Hne].
  - rewrite filter_cons_False by (simpl; auto).
    by rewrite (filter_cons_False (λ k', k' ≠ k)) by auto.
  - rewrite filter_cons_True by done.
    rewrite (filter_cons_True (λ k', k' ≠ k)) by done.
    by rewrite fmap_cons, IH.
Qed.

Lemma dict_keys_strip (ks : list string) (d : dict Tensor) :
  dict_keys (strip ks d) = filter (λ k, k ∉ ks) (dict_keys d).
Proof.
  revert d. induction ks as [|a ks IH]; intros d; simpl.
  - induction (dict_keys d) as [|k l IHl]; [done|].
    rewrite filter_cons_True by apply not_elem_of_nil. by rewrite <- IHl.
  - rewrite IH, dict_keys_remove, list_filter_filter.
    apply list_filter_iff. intros k. rewrite not_elem_of_cons. tauto.
Qed.

Lemma dict_mem_strip (feat : string) (ks : list string) (d : dict Tensor) :
  feat ∉ ks → dict_mem feat (strip ks d) = dict_mem feat d.
Proof.
  intros Hfeat. unfold dict_mem. apply bool_decide_ext.
  rewrite dict_keys_strip, list_elem_of_filter. tauto.
Qed.

(** The dictionaries the high-memory loop holds after converting [ks]. *)
Lemma high_loop_ok (wg : string) (n : Z) (ks : list string) :
  ∀ (fd fd1 : list (dict Tensor)) (w w1 : World),
    for_fold ks (convert_feature_high wg n) fd w = (w1, Ok fd1) →
    fd1 = strip ks <$> fd.
Proof.
  induction ks as [|f ks IH]; intros fd fd1 w w1; simpl.
  - intros [= _ <-]. by rewrite list_fmap_id.
  - unfold bindM. rewrite convert_feature_high_unfold.
    destruct (gather_high f fd) as [whole|] eqn:Eh; [|done].
    rewrite del_all by (by eapply gather_high_ok_find).
    destruct (wholegraph_processing whole f wg n w) as [w' [[]|e]];
      simpl; [|done].
    intros Hrest. apply IH in Hrest. rewrite Hrest, <- list_fmap_compose.
    done.
Qed.

(** C7 as the code has it.  When a partition file that loads lacks a
    requested key, either path raises, the metadata entry of the key is
    what it was and no shard of the key is written.  Which error the call
    raises, once the keys requested before this one have been converted:

    - the high-memory path checks the first partition only (line 186).
      When the first partition lacks the key, the call raises the
      "Unknown feature" error naming the key and listing the keys of the
      first partition that the call has not converted and deleted before;
      when the first partition holds the key and a later one lacks it, the
      call raises the [KeyError] of [t[feat]] (line 193), which names the
      key and lists nothing;
    - the low-memory path raises the "Unknown feature" error naming the
      key and listing the keys of the first partition file that lacks it,
      when the loop of lines 216-227 has passed the partitions before
      it. *)
Theorem C7_missing_key (fname_dict : dict (list string))
    (file_name folder : string)
    (listing : list (string * bool)) (names : list string) (w : World)
    (feat name : string) (d : dict Tensor) :
  part_files listing = Ok names →
  feat ∈ requested_keys fname_dict →
  name ∈ names →
  part_fs w !! feat_file_path folder file_name name = Some d →
  dict_mem feat d = false →
  (∀ use_low_mem,
     is_ok (convert_feat_to_wholegraph fname_dict file_name folder
              use_low_mem listing w).2 = false ∧
     metadata (convert_feat_to_wholegraph fname_dict file_name folder
                 use_low_mem listing w).1 !! feat
     = metadata w !! feat ∧
     (∀ sw,
        sw ∈ shard_log (convert_feat_to_wholegraph fname_dict file_name
                          folder use_low_mem listing w).1 →
        sw_feat sw = feat → sw ∈ shard_log w)) ∧
  (∀ ds pre post,
     load_all folder file_name (part_fs w) names = Ok ds →
     requested_keys fname_dict = pre ++ feat :: post →
     (∀ w1 fd1 first rest,
        for_fold pre
          (convert_feature_high (path_join folder "wholegraph")
             (Z.of_nat (length ds))) ds w = (w1, Ok fd1) →
        ds = first :: rest →
        convert_feat_to_wholegraph fname_dict file_name folder false
          listing w
        = (w1,
           Raise (if dict_mem feat first
                  then KeyError feat
                  else RuntimeError
                         (UnknownFeature feat
                            (filter (λ k, k ∉ pre) (dict_keys first)))))) ∧
     (∀ w1 ds1 lacking ds2 st,
        for_each pre
          (convert_feature_low (path_join folder "wholegraph") folder
             file_name names) w = (w1, Ok tt) →
        ds = ds1 ++ lacking :: ds2 →
        gather_low feat ds1 (None, 0) = Ok st →
        dict_mem feat lacking = false →
        convert_feat_to_wholegraph fname_dict file_name folder true
          listing w
        = (w1,
           Raise (RuntimeError
                    (UnknownFeature feat (dict_keys lacking)))))).
Proof.
  intros Hpf Hreq Hname Hd Hmem. split.
  { intros use_low_mem.
    unfold convert_feat_to_wholegraph, bindM, liftR. rewrite Hpf.
    destruct (missing_key_not_converted folder file_name fname_dict
                use_low_mem names w feat name d Hreq Hname Hd Hmem)
      as [Hr [Hm Hl]].
    done. }
  intros ds pre post Hload Hkeys.
  assert (d ∈ ds) as Hin by (by eapply load_all_elem).
  assert (find_all feat ds = None) as Hnone
    by (by eapply find_all_lacking).
  split.
  - intros w1 fd1 first rest Hpre ->.
    assert (feat ∉ pre) as Hfresh.
    { intros Hfeat.
      destruct (high_loop_missing feat (path_join folder "wholegraph")
                  (Z.of_nat (length (first :: rest))) pre (first :: rest) w
                  Hnone) as [_ Hr].
      specialize (Hr Hfeat). by rewrite Hpre in Hr. }
    pose proof (high_loop_ok _ _ _ _ _ _ _ Hpre) as ->.
    unfold convert_feat_to_wholegraph, bindM at 1, liftR. rewrite Hpf.
    cbn [negb]. cbv iota.
    rewrite (convert_high_loaded folder file_name fname_dict names
               (first :: rest) w Hload).
    rewrite Hkeys. unfold bindM at 1. rewrite for_fold_app.
    unfold bindM at 1. rewrite Hpre. cbn [for_fold]. unfold bindM at 1.
    rewrite convert_feature_high_unfold. unfold gather_high.
    rewrite fmap_cons, list_get_0. cbn [bindR].
    rewrite dict_mem_strip by done.
    destruct (dict_mem feat first) eqn:Efirst; cbn [negb]; cbv iota.
    + rewrite (mapR_get_lacking feat _ (strip pre d)).
      * done.
      * rewrite <- fmap_cons. by apply list_elem_of_fmap_2.
      * by rewrite dict_mem_strip.
    + by rewrite dict_keys_strip.
  - intros w1 ds1 lacking ds2 st Hpre -> Hearly Hlack.
    assert (part_fs w1 = part_fs w) as Hfs.
    { pose proof (for_each_rel same_part_fs same_part_fs_refl
                    same_part_fs_trans pre
                    (convert_feature_low (path_join folder "wholegraph")
                       folder file_name names)
                    (λ x s, convert_feature_low_part_fs _ _ _ _ x s)
                    w) as Hsame.
      by rewrite Hpre in Hsame. }
    unfold convert_feat_to_wholegraph, bindM at 1, liftR. rewrite Hpf.
    cbn [negb]. cbv iota. unfold convert_low. rewrite Hkeys.
    unfold bindM at 1. rewrite for_each_app. unfold bindM at 1.
    rewrite Hpre. cbn [for_each]. unfold bindM at 1.
    rewrite (convert_feature_low_unfold folder file_name _ names
               (ds1 ++ lacking :: ds2)) by (by rewrite Hfs).
    rewrite gather_low_app, Hearly. cbn [bindR gather_low].
    unfold step_low. by rewrite Hlack.
Qed.

End MissingKeyTheorem.

Section MissingKeyExamples.
#[local] Existing Instance Toy.plain.

Definition with_x_and_y : dict Tensor :=
  [("node/x", [[1; 2]; [3; 4]]); ("node/y", [[5]; [6]])].

Definition only_y : dict Tensor := [("node/y", [[9]])].

(** Feature [x] is in partition 0 and not in partition 1. *)
Definition x_missing_in_part1 : World :=
  Toy.world
    (<[ "data/part0/node_feat.dgl" := with_x_and_y ]>
     {[ "data/part1/node_feat.dgl" := only_y ]}).

(** The high-memory path on that input raises [KeyError('node/x')]: the
    message does not list the keys of partition 1's file. *)
Lemma C7_counterexample :
  ¬ (∀ (use_low_mem : bool) (feat name : string) (d : dict Tensor),
       feat ∈ requested_keys [("node", ["x"])] →
       name ∈ ["part0"; "part1"] →
       part_fs x_missing_in_part1
         !! feat_file_path "data" "node_feat.dgl" name = Some d →
       dict_mem feat d = false →
       (convert_feat_to_wholegraph [("node", ["x"])] "node_feat.dgl" "data"
          use_low_mem two_part_dirs x_missing_in_part1).2
       = Raise (RuntimeError (UnknownFeature feat (dict_keys d)))).
Proof.
  intros Hclaim.
  specialize (Hclaim false "node/x" "part1" only_y).
  assert ("node/x" ∈ requested_keys [("node", ["x"])]) as H1
    by (apply (bool_decide_unpack _); by vm_compute).
  assert ("part1" ∈ ["part0"; "part1"]) as H2
    by (apply (bool_decide_unpack _); by vm_compute).
  specialize (Hclaim H1 H2 eq_refl eq_refl).
  vm_compute in Hclaim. discriminate Hclaim.
Qed.

(** A request for [y], which both partitions hold, then [x]: after [y]
    has been converted the high-memory path raises [KeyError] and the
    low-memory path the "Unknown feature" error listing the keys of
    partition 1's file. *)
Lemma C7_missing_key_witness :
  (convert_feat_to_wholegraph [("node", ["y"; "x"])] "node_feat.dgl" "data"
     false two_part_dirs x_missing_in_part1).2
  = Raise (KeyError "node/x") ∧
  (convert_feat_to_wholegraph [("node", ["y"; "x"])] "node_feat.dgl" "data"
     true two_part_dirs x_missing_in_part1).2
  = Raise (RuntimeError (UnknownFeature "node/x" ["node/y"])).
Proof.
  destruct (C7_missing_key (Ext := Toy.plain)
              [("node", ["y"; "x"])] "node_feat.dgl" "data" two_part_dirs
              ["part0"; "part1"] x_missing_in_part1 "node/x" "part1" only_y)
    as [_ Herr].
  - reflexivity.
  - apply (bool_decide_unpack _). by vm_compute.
  - apply (bool_decide_unpack _). by vm_compute.
  - reflexivity.
  - reflexivity.
  - destruct (Herr [with_x_and_y; only_y] ["node/y"] [] eq_refl eq_refl)
      as [Hhigh Hlow].
    split.
    + rewrite (Hhigh
                 (for_fold ["node/y"]
                    (convert_feature_high "data/wholegraph" 2)
                    [with_x_and_y; only_y] x_missing_in_part1).1
                 [[("node/x", [[1; 2]; [3; 4]])]; []]
                 with_x_and_y [only_y] eq_refl eq_refl).
      reflexivity.
    + rewrite (Hlow
                 (for_each ["node/y"]
                    (convert_feature_low "data/wholegraph" "data"
                       "node_feat.dgl" ["part0"; "part1"])
                    x_missing_in_part1).1
                 [with_x_and_y] only_y []
                 (Some [[1; 2]; [3; 4]], 1) eq_refl eq_refl eq_refl eq_refl).
      reflexivity.
Defined.

End MissingKeyExamples.

(** * Further properties of the module *)

(** ** [wholegraph_processing]: a run whose service calls all succeed *)

Section ResharderRuns.
Context `{Ext : External}.


(** Arguments the resharder cannot shard: with [num_parts = 0] the
    division of line 96 raises [ZeroDivisionError], and on a tensor without
    dimensions [shape[0]] raises [IndexError]; in both cases the metadata
    entry of line 90 has been stored and no shard is written. *)
Theorem wholegraph_processing_bad_arguments (whole : Tensor)
    (feat wg_folder : string) (num_parts : Z) (w : World) (comm : Comm) :
  get_local_device_communicator = Ok comm →
  (∀ rows, list_get (tensor_shape whole) 0 = Ok rows → num_parts = 0 →
     (wholegraph_processing whole feat wg_folder num_parts w).2
     = Raise ZeroDivisionError) ∧
  (tensor_shape whole = [] →
     (wholegraph_processing whole feat wg_folder num_parts w).2
     = Raise IndexError) ∧
  ((num_parts = 0 ∨ tensor_shape whole = []) →
     metadata (wholegraph_processing whole feat wg_folder num_parts w).1
       !! feat = Some (whole_meta whole) ∧
     wg_files (wholegraph_processing whole feat wg_folder num_parts w).1
     = wg_files w ∧
     shard_log (wholegraph_processing whole feat wg_folder num_parts w).1
     = shard_log w).
Proof.
  intros Hcomm. split; [|split].
  - intros rows Hrows ->. unfold wholegraph_processing, bindM, liftR. simpl.
    by rewrite Hcomm, Hrows.
  - intros Hs. unfold wholegraph_processing, bindM, liftR. simpl.
    by rewrite Hcomm, Hs.
  - intros Hbad. split.
    { rewrite wholegraph_processing_metadata. apply lookup_insert_eq. }
    unfold wholegraph_processing, bindM, liftR. simpl. rewrite Hcomm.
    destruct (list_get (tensor_shape whole) 0) as [rows|] eqn:Hrows;
      simpl; [|done].
    destruct Hbad as [->|Hs]; [done|]. by rewrite Hs in Hrows.
Qed.

End ResharderRuns.

Section ResharderRunExamples.
#[local] Existing Instance Toy.plain.

Definition four_rows : Tensor := [[1]; [2]; [3]; [4]].


Lemma wholegraph_processing_bad_arguments_witness :
  (wholegraph_processing four_rows "node/x" "wg" 0 (Toy.world ∅)).2
    = Raise ZeroDivisionError ∧
  metadata (wholegraph_processing four_rows "node/x" "wg" 0 (Toy.world ∅)).1
    !! "node/x"
    = Some {| meta_shape := [4; 1]; meta_dtype := "torch.int64" |}.
Proof.
  destruct (wholegraph_processing_bad_arguments (Ext := Toy.plain)
              four_rows "node/x" "wg" 0 (Toy.world ∅) tt eq_refl)
    as (Hzero & _ & Hkept).
  split.
  - exact (Hzero 4 eq_refl eq_refl).
  - destruct (Hkept (or_introl eq_refl)) as [Hm _]. exact Hm.
Defined.

End ResharderRunExamples.

(** ** Row ranges: when every shard is well formed *)

Section WellFormedRanges.

(** For [R >= 1] rows and [N >= 1] shards, every range of lines 99-102
    lies inside the tensor exactly when the last shard does not start past
    the last row, [(N-1) * ceil(R/N) <= R]; this holds whenever the shard
    count is at most the shard size, in particular when [N * N <= R].
    Otherwise the last shard has a negative length [end - st]. *)
Theorem shard_ranges_well_formed (R N : Z) :
  1 ≤ R → 1 ≤ N →
  (Forall (well_formed_range R) (shard_ranges R N) ↔
   (N - 1) * subpart_size R N ≤ R) ∧
  (N ≤ subpart_size R N → Forall (well_formed_range R) (shard_ranges R N)) ∧
  (N * N ≤ R → Forall (well_formed_range R) (shard_ranges R N)) ∧
  (R < (N - 1) * subpart_size R N →
   ∃ r, last (shard_ranges R N) = Some r ∧ range_len r < 0).
Proof.
  intros HR HN.
  pose proof (subpart_size_ceil R N HN ltac:(lia)) as [Hc1 Hc2].
  pose proof (subpart_size_pos R N HN HR) as Hpos.
  assert (Forall (well_formed_range R) (shard_ranges R N) ↔
          (N - 1) * subpart_size R N ≤ R) as Hiff.
  { rewrite shard_ranges_snoc by done. rewrite Forall_app, Forall_singleton.
    unfold well_formed_range. simpl. split.
    - intros [_ [? ?]]. lia.
    - intros Hlast. split; [|nia].
      apply Forall_fmap, Forall_forall. intros x Hx%elem_of_range.
      unfold grid_range. simpl. nia. }
  split; [exact Hiff|]. split; [|split].
  - intros Hle. apply Hiff. nia.
  - intros Hsq. apply Hiff. nia.
  - intros Hgt. rewrite shard_ranges_snoc by done. rewrite last_snoc.
    eexists. split; [done|]. unfold range_len. simpl. lia.
Qed.

Lemma shard_ranges_well_formed_witness :
  Forall (well_formed_range 12) (shard_ranges 12 3) ∧
  ∃ r, last (shard_ranges 5 4) = Some r ∧ range_len r < 0.
Proof.
  split.
  - destruct (shard_ranges_well_formed 12 3 ltac:(lia) ltac:(lia))
      as (_ & _ & Hsq & _).
    apply Hsq. lia.
  - destruct (shard_ranges_well_formed 5 4 ltac:(lia) ltac:(lia))
      as (_ & _ & _ & Hneg).
    apply Hneg. vm_compute. reflexivity.
Defined.

End WellFormedRanges.

(** ** No partition directory *)

Section NoPartitions.
Context `{Ext : External}.

(** With no directory named [part<digits>] under [folder]: a request
    without feature returns at once on either path; a request with a
    feature raises before anything is read or written, [IndexError] from
    [feats_data[0]] on the high-memory path and [UnboundLocalError] from
    [del nfeat] on the low-memory path. *)
Theorem convert_without_partitions (fname_dict : dict (list string))
    (file_name folder : string) (listing : list (string * bool))
    (w : World) :
  part_files listing = Ok [] →
  (requested_keys fname_dict = [] →
     ∀ use_low_mem,
       convert_feat_to_wholegraph fname_dict file_name folder use_low_mem
         listing w = (w, Ok tt)) ∧
  (requested_keys fname_dict ≠ [] →
     convert_feat_to_wholegraph fname_dict file_name folder false listing w
     = (w, Raise IndexError) ∧
     convert_feat_to_wholegraph fname_dict file_name folder true listing w
     = (w, Raise (UnboundLocalError "nfeat"))).
Proof.
  intros Hpf. unfold convert_feat_to_wholegraph, bindM, liftR. rewrite Hpf.
  split.
  - intros Hk [|]; simpl.
    + unfold convert_low, bindM. by rewrite Hk.
    + unfold convert_high, bindM. by rewrite Hk.
  - intros Hk. destruct (requested_keys fname_dict) as [|k ks] eqn:Ek;
      [done|].
    split; simpl.
    + unfold convert_high, bindM. by rewrite Ek.
    + unfold convert_low, bindM. by rewrite Ek.
Qed.

End NoPartitions.

Section NoPartitionsExample.
#[local] Existing Instance Toy.plain.

Lemma convert_without_partitions_witness :
  convert_feat_to_wholegraph [("node", ["x"])] "node_feat.dgl" "data" false
    [("wholegraph", true); ("part0", false)] (Toy.world ∅)
  = (Toy.world ∅, Raise IndexError) ∧
  convert_feat_to_wholegraph [("node", ["x"])] "node_feat.dgl" "data" true
    [("wholegraph", true); ("part0", false)] (Toy.world ∅)
  = (Toy.world ∅, Raise (UnboundLocalError "nfeat")).
Proof.
  destruct (convert_without_partitions (Ext := Toy.plain)
              [("node", ["x"])] "node_feat.dgl" "data"
              [("wholegraph", true); ("part0", false)] (Toy.world ∅)
              eq_refl) as [_ Hsome].
  apply Hsome. discriminate.
Defined.

End NoPartitionsExample.

(** ** The trimmer on a partition that is not in order *)

Section TrimmerEdges.
Context `{Ext : External}.

(** A file name without directory part. *)
Definition plain_file_name (file_name : string) : Prop :=
  file_name ≠ EmptyString ∧
  "/"%char ∉ String.list_ascii_of_string file_name.

(** A run that finds the backup of the feature file and not the feature
    file itself, as after a stop between the two renames (the backup being
    there, so is the partition directory, and the new file can be written).
    The trimmer does not recover: it saves the new file, then the first
    rename raises [FileNotFoundError]; the [new_] file is left behind, the
    backup is what it was and the feature file is still missing.  When the
    partition number is not an index of the list, nothing is written. *)
Theorem trim_feat_files_missing_original (trimmed_feats : list (dict Tensor))
    (folder file_name : string) (part : Z) (w : World) :
  let file := path_join (part_dir folder part) file_name in
  let new_file := path_join (part_dir folder part) ("new_" +:+ file_name) in
  let bak := path_join (part_dir folder part) (file_name +:+ ".bak") in
  let trim := trim_feat_files (FeatList trimmed_feats) folder file_name part in
  (∀ d saved,
     list_get trimmed_feats part = Ok d →
     plain_file_name file_name →
     part_fs w !! bak = Some saved →
     part_fs w !! file = None →
     trim w = (with_part_fs w (<[new_file := d]> (part_fs w)),
               Raise (FileNotFoundError file)) ∧
     part_fs (trim w).1 !! new_file = Some d ∧
     part_fs (trim w).1 !! bak = Some saved ∧
     part_fs (trim w).1 !! file = None) ∧
  (∀ e, list_get trimmed_feats part = Raise e → trim w = (w, Raise e)).
Proof.
  intros file new_file bak trim. split.
  - intros d saved Hd _ Hbak Hnone.
    destruct (trim_paths_distinct folder file_name part) as (Hfn & _ & Hnb).
    cbv zeta in Hfn, Hnb. fold file new_file bak in Hfn, Hnb.
    assert (trim w = (with_part_fs w (<[new_file := d]> (part_fs w)),
                      Raise (FileNotFoundError file))) as Hrun.
    { subst trim. unfold trim_feat_files, bindM, liftR. simpl. rewrite Hd.
      fold file new_file. unfold save_tensors, os_rename. simpl.
      by rewrite lookup_insert_ne, Hnone. }
    rewrite Hrun. simpl. split; [done|]. split; [apply lookup_insert_eq|].
    split; by rewrite lookup_insert_ne.
  - intros e He. subst trim. unfold trim_feat_files, bindM, liftR. simpl.
    by rewrite He.
Qed.

(** The trimmer works on three paths of the partition directory only:
    whatever its outcome, every other file is as it was, and a [.bak] file
    that existed still exists. *)
Theorem trim_feat_files_frame (trimmed_feats : PyFeats)
    (folder file_name : string) (part : Z) (w : World) (p : string) :
  (p ≠ path_join (part_dir folder part) file_name →
   p ≠ path_join (part_dir folder part) ("new_" +:+ file_name) →
   p ≠ path_join (part_dir folder part) (file_name +:+ ".bak") →
   part_fs (trim_feat_files trimmed_feats folder file_name part w).1 !! p
   = part_fs w !! p) ∧
  (is_Some (part_fs w
            !! path_join (part_dir folder part) (file_name +:+ ".bak")) →
   is_Some (part_fs (trim_feat_files trimmed_feats folder file_name part w).1
            !! path_join (part_dir folder part) (file_name +:+ ".bak"))).
Proof.
  split; [|apply trim_feat_files_keeps_bak].
  intros HF HN HB.
  set (F := path_join (part_dir folder part) file_name) in *.
  set (N := path_join (part_dir folder part) ("new_" +:+ file_name)) in *.
  set (B := path_join (part_dir folder part) (file_name +:+ ".bak")) in *.
  unfold trim_feat_files, bindM, liftR.
  destruct (subscript_int trimmed_feats part) as [d|]; [|done].
  fold F N B. unfold save_tensors, os_rename. simpl.
  destruct (<[N:=d]> (part_fs w) !! F) as [orig|] eqn:EF; simpl.
  - destruct (<[B:=orig]> (delete F (<[N:=d]> (part_fs w))) !! N)
      as [d'|] eqn:EN; simpl.
    + rewrite lookup_insert_ne by done. rewrite lookup_delete_ne by done.
      rewrite lookup_insert_ne by done. rewrite lookup_delete_ne by done.
      by rewrite lookup_insert_ne.
    + rewrite lookup_insert_ne by done. rewrite lookup_delete_ne by done.
      by rewrite lookup_insert_ne.
  - by rewrite lookup_insert_ne.
Qed.

(** The new file, the feature file and its backup are three different
    paths for every folder, file name and partition number, so neither
    rename of lines 138-145 can overwrite the file the other one moves. *)
Theorem trim_feat_files_three_paths (folder file_name : string) (part : Z) :
  NoDup [path_join (part_dir folder part) file_name;
         path_join (part_dir folder part) ("new_" +:+ file_name);
         path_join (part_dir folder part) (file_name +:+ ".bak")].
Proof.
  destruct (trim_paths_distinct folder file_name part) as (Hfn & Hfb & Hnb).
  cbv zeta in *. repeat constructor.
  - rewrite !not_elem_of_cons. split; [done|]. split; [done|].
    apply not_elem_of_nil.
  - rewrite !not_elem_of_cons. split; [done|]. apply not_elem_of_nil.
  - apply not_elem_of_nil.
Qed.

End TrimmerEdges.

Section TrimmerEdgeExamples.
#[local] Existing Instance Toy.plain.

(** Partition 0 after a stop between the two renames: the backup is
    there, the feature file is not. *)
Definition only_backup : World :=
  Toy.world {[ "data/part0/node_feat.dgl.bak" := with_x_and_y ]}.

Lemma trim_feat_files_missing_original_witness :
  (trim_feat_files (FeatList [only_y]) "data" "node_feat.dgl" 0
     only_backup).2
  = Raise (FileNotFoundError "data/part0/node_feat.dgl") ∧
  part_fs (trim_feat_files (FeatList [only_y]) "data" "node_feat.dgl" 0
             only_backup).1 !! "data/part0/new_node_feat.dgl"
  = Some only_y.
Proof.
  destruct (trim_feat_files_missing_original (Ext := Toy.plain)
              [only_y] "data" "node_feat.dgl" 0 only_backup)
    as [Hmissing _].
  destruct (Hmissing only_y with_x_and_y) as (Hrun & Hnew & _ & _).
  - reflexivity.
  - split; [discriminate|]. apply (bool_decide_unpack _). by vm_compute.
  - reflexivity.
  - reflexivity.
  - split; [by rewrite Hrun|exact Hnew].
Defined.

Lemma trim_feat_files_frame_witness :
  part_fs (trim_feat_files (FeatList [only_y]) "data" "node_feat.dgl" 0
             x_missing_in_part1).1 !! "data/part1/node_feat.dgl"
  = Some only_y.
Proof.
  destruct (trim_feat_files_frame (Ext := Toy.plain)
              (FeatList [only_y]) "data" "node_feat.dgl" 0
              x_missing_in_part1 "data/part1/node_feat.dgl") as [Hframe _].
  rewrite Hframe; [reflexivity|discriminate|discriminate|discriminate].
Defined.

End TrimmerEdgeExamples.

(** ** The handle's precondition checks *)

Section HandleChecks.
Context `{Ext : External} `{Svc : !EmbedService}.

(** On a handle without tensor, whatever its other fields, reading,
    writing and saving raise the assertion error of lines 454, 501 and 523
    and leave the handle and the store as they are: no service call is
    made. *)
Theorem handle_without_tensor_refuses (self : WholeGraphDistTensor)
    (σ : WGStore) (idx val : Tensor) (path file_prefix : string) :
  _tensor self = None →
  __getitem__ idx (self, σ)
  = ((self, σ),
     Raise (AssertionError "Please create WholeGraph tensor first.")) ∧
  __setitem__ idx val (self, σ)
  = ((self, σ),
     Raise (AssertionError "Please create WholeGraph tensor first.")) ∧
  save_to_file path file_prefix (self, σ)
  = ((self, σ),
     Raise (AssertionError "Please create WholeGraph tensor first.")).
Proof.
  intros Hnone.
  unfold __getitem__, __setitem__, save_to_file, bindM, get_self. simpl.
  by rewrite Hnone.
Qed.

(** [attach_wg_optimizer] refuses a handle built without optimizer mode
    (line 419) and a handle that already has an optimizer (line 433),
    whatever the module-level names are bound to; the handle and the store
    are unchanged. *)
Theorem attach_refused (G : Globals) (self : WholeGraphDistTensor)
    (σ : WGStore) (wg_optimizer : Optimizer) :
  (_use_wg_optimizer self = false →
   attach_wg_optimizer G wg_optimizer (self, σ)
   = ((self, σ),
      Raise (AssertionError
        "Please create WholeGraphDistTensor tensor with attach_optimizer=True."))) ∧
  (_use_wg_optimizer self = true → is_Some (_optimizer self) →
   attach_wg_optimizer G wg_optimizer (self, σ)
   = ((self, σ), Raise (RuntimeError OptimizerAlreadyExists))).
Proof.
  split.
  - intros Huse. unfold attach_wg_optimizer, bindM, get_self, py_assert.
    simpl. by rewrite Huse.
  - intros Huse [o Ho].
    unfold attach_wg_optimizer, bindM, get_self, py_assert. simpl.
    by rewrite Huse, Ho.
Qed.

(** The version check of lines 403-404 compares strings: when
    [pylibwholegraph.__version__] is below ["23.12.00"] in that order, the
    constructor raises the assertion error in either mode, and no tensor
    is created. *)
Theorem init_old_version (G : Globals) (n d : Z) (rest : list Z)
    (dtype : DType) (name location : string) (use_wg_optimizer : bool)
    (σ : WGStore) :
  String.leb "23.12.00" wg_version = false →
  __init__ G (n :: d :: rest) dtype name location use_wg_optimizer σ
  = (σ, Raise (AssertionError
                 "Please upgrade to the latest version of WholeGraph.")).
Proof.
  intros Hv. unfold __init__, bindM, liftR.
  by rewrite list_get_0, list_get_1, Hv.
Qed.

End HandleChecks.

(** A service of version 22.10.00, below 23.12.00. *)
Definition old_service : @EmbedService Toy.plain := Toy.service "22.10.00".

Section HandleCheckExamples.
#[local] Existing Instance Toy.plain.

Lemma handle_without_tensor_refuses_witness :
  __setitem__ (Svc := recent_service) two_indices two_indices
    (deferred_4_2, 0%nat)
  = ((deferred_4_2, 0%nat),
     Raise (AssertionError "Please create WholeGraph tensor first.")).
Proof.
  destruct (handle_without_tensor_refuses (Svc := recent_service)
              deferred_4_2 0%nat two_indices two_indices "dir" "emb"
              eq_refl) as (_ & Hset & _).
  exact Hset.
Defined.

Lemma attach_refused_witness :
  attach_wg_optimizer (Svc := recent_service) module_globals 5%nat
    (fresh_handle (Svc := recent_service) 4 2 tt "emb" "cpu" false, 0%nat)
  = ((fresh_handle (Svc := recent_service) 4 2 tt "emb" "cpu" false, 0%nat),
     Raise (AssertionError
       "Please create WholeGraphDistTensor tensor with attach_optimizer=True.")).
Proof.
  destruct (attach_refused (Svc := recent_service) module_globals
              (fresh_handle (Svc := recent_service) 4 2 tt "emb" "cpu" false)
              0%nat 5%nat) as [Hplain _].
  exact (Hplain eq_refl).
Defined.

Lemma init_old_version_witness :
  __init__ (Svc := old_service) module_globals [4; 2] tt "emb" "cpu" false
    0%nat
  = (0%nat, Raise (AssertionError
                     "Please upgrade to the latest version of WholeGraph.")).
Proof.
  exact (init_old_version (Svc := old_service) module_globals 4 2 [] tt
           "emb" "cpu" false 0%nat eq_refl).
Defined.

End HandleCheckExamples.

(** ** The loader's failures *)

Section LoaderFailures.
Context `{Ext : External} `{Svc : !EmbedService}.

(** [load_wg_feat] on a feature the metadata does not record raises
    [KeyError] with the key [type/name]; on a recorded dtype string without
    a dot it raises [IndexError].  In both cases no embedding has been
    created: the store is untouched. *)
Theorem load_wg_feat_bad_metadata
    (json_files : gmap string (gmap string Meta))
    (part_config_path : string) (num_parts : Z) (type_name name : string)
    (wg_metadata : gmap string Meta) (comm : GlobalComm)
    (policy : CachePolicy) (σ : WGStore) :
  get_global_communicator = Ok comm →
  create_builtin_cache_policy = Ok policy →
  json_files !! path_join (dirname part_config_path) "wholegraph/metadata.json"
    = Some wg_metadata →
  (wg_metadata !! (type_name +:+ "/" +:+ name) = None →
   load_wg_feat true json_files part_config_path num_parts type_name name σ
   = (σ, Raise (KeyError (type_name +:+ "/" +:+ name)))) ∧
  (∀ entry,
     wg_metadata !! (type_name +:+ "/" +:+ name) = Some entry →
     length (split (meta_dtype entry) ".") = 1%nat →
     load_wg_feat true json_files part_config_path num_parts type_name name σ
     = (σ, Raise IndexError)).
Proof.
  intros Hcomm Hpol Hjson. split.
  - intros Hnone. unfold load_wg_feat. simpl.
    unfold bindM at 1, liftR at 1. rewrite Hcomm.
    unfold bindM at 1, liftR at 1. rewrite Hpol.
    unfold bindM at 1, liftR at 1. rewrite Hjson.
    unfold bindM at 1, liftR at 1. by rewrite Hnone.
  - intros entry Hentry Hlen. unfold load_wg_feat. simpl.
    unfold bindM at 1, liftR at 1. rewrite Hcomm.
    unfold bindM at 1, liftR at 1. rewrite Hpol.
    unfold bindM at 1, liftR at 1. rewrite Hjson.
    unfold bindM at 1, liftR at 1. rewrite Hentry.
    unfold bindM at 1, liftR at 1.
    destruct (split (meta_dtype entry) ".") as [|s [|s' l]]; done.
Qed.

End LoaderFailures.

Section LoaderFailureExamples.
#[local] Existing Instance Toy.plain.

Lemma load_wg_feat_bad_metadata_witness :
  load_wg_feat (Svc := recent_service) true recorded_1d "data/part.json" 2
    "node" "feat" 0%nat
  = (0%nat, Raise (KeyError "node/feat")).
Proof.
  destruct (load_wg_feat_bad_metadata (Svc := recent_service)
              recorded_1d "data/part.json" 2 "node" "feat"
              {[ "node/label" :=
                   {| meta_shape := [7]; meta_dtype := "torch.int64" |} ]}
              tt tt 0%nat eq_refl eq_refl eq_refl) as [Hkey _].
  exact (Hkey eq_refl).
Defined.

End LoaderFailureExamples.

(** ** A feature requested twice on the high-memory path *)

Section RequestedTwice.
Context `{Ext : External}.

Lemma dict_find_remove_eq {V} (k : string) (d : dict V) :
  dict_find k (dict_remove k d) = None.
Proof.
  apply dict_find_None. unfold dict_keys, dict_remove.
  intros ([k0 v0] & -> & Hin)%list_elem_of_fmap.
  apply list_elem_of_filter in Hin as [Hin _]. by simpl in Hin.
Qed.

(** Once the high-memory path has converted a feature, the feature is
    gone from every partition dictionary it holds (lines 196-197), and
    converting the same key again raises the "Unknown feature" error,
    listing the keys left in the first partition, without touching the
    world. *)
Theorem convert_feature_high_twice (wg : string) (n : Z)
    (fd fd' : list (dict Tensor)) (f : string) (w w' : World) :
  convert_feature_high wg n fd f w = (w', Ok fd') →
  fd' = (dict_remove f <$> fd) ∧
  ∃ first,
    fd' !! 0%nat = Some first ∧
    (f ∉ dict_keys first) ∧
    (∀ wg2 n2 w2,
       convert_feature_high wg2 n2 fd' f w2
       = (w2, Raise (RuntimeError (UnknownFeature f (dict_keys first))))).
Proof.
  rewrite convert_feature_high_unfold.
  destruct (gather_high f fd) as [whole|] eqn:Eh; [|done].
  rewrite del_all by (by eapply gather_high_ok_find).
  destruct (wholegraph_processing whole f wg n w) as [w1 [[]|e]];
    simpl; [|done].
  intros [= <- <-]. split; [done|].
  destruct fd as [|d fd]; [done|].
  exists (dict_remove f d). split; [done|].
  pose proof (dict_find_remove_eq f d) as Hnone.
  split; [by apply dict_find_None|].
  intros wg2 n2 w2. rewrite convert_feature_high_unfold.
  unfold gather_high. rewrite fmap_cons, list_get_0. cbn [bindR].
  by rewrite (proj2 (dict_mem_false f (dict_remove f d)) Hnone).
Qed.

End RequestedTwice.

Section RequestedTwiceExample.
#[local] Existing Instance Toy.plain.

Definition empty_dicts : list (dict Tensor) := [[]].

Lemma convert_feature_high_twice_witness :
  convert_feature_high "wg" 1 empty_dicts "node/y" (Toy.world ∅)
  = (Toy.world ∅, Raise (RuntimeError (UnknownFeature "node/y" []))).
Proof.
  destruct (convert_feature_high_twice (Ext := Toy.plain)
              "wg" 1 [only_y] empty_dicts "node/y" (Toy.world ∅)
              (convert_feature_high "wg" 1 [only_y] "node/y"
                 (Toy.world ∅)).1)
    as (_ & first & Hfirst & _ & Hagain).
  - vm_compute. reflexivity.
  - injection Hfirst as <-. exact (Hagain "wg" 1 (Toy.world ∅)).
Defined.

End RequestedTwiceExample.

(** ** The file-name form of a feature key *)

Section CanonicalKey.

(** [feat.replace("/", "~")] (line 115) keeps the length of the key,
    leaves no slash in it, and changes nothing in a key without slash: the
    prefix handed to [get_part_file_name] never contains a path
    separator. *)
Theorem canonical_key_no_slash (feat : string) :
  String.length (replace_char "/" "~" feat) = String.length feat ∧
  ("/"%char ∉ String.list_ascii_of_string (replace_char "/" "~" feat)) ∧
  ("/"%char ∉ String.list_ascii_of_string feat →
   replace_char "/" "~" feat = feat).
Proof.
  induction feat as [|a s (IH1 & IH2 & IH3)]; simpl.
  - split; [done|]. split; [apply not_elem_of_nil|done].
  - split; [by rewrite IH1|]. split.
    + rewrite not_elem_of_cons. split; [|done].
      destruct (Ascii.eqb a "/") eqn:E; [done|].
      apply Ascii.eqb_neq in E. congruence.
    + rewrite not_elem_of_cons. intros [Ha Hs].
      destruct (Ascii.eqb a "/") eqn:E.
      * apply Ascii.eqb_eq in E. congruence.
      * by rewrite IH3.
Qed.

End CanonicalKey.

(** ** The partition directories (lines 165-171) *)

Section PartitionDirectories.

Fixpoint digits_or_newline (s : string) : bool :=
  match s with
  | EmptyString => true
  | String a s' => (is_digit a || Ascii.eqb a newline) && digits_or_newline s'
  end.

Lemma all_digits_drop_final_newline (s : string) :
  all_digits (drop_final_newline s) = true → digits_or_newline s = true.
Proof.
  induction s as [|a s IH]; [done|].
  destruct s as [|b s].
  - simpl. destruct (Ascii.eqb a newline); simpl.
    + by rewrite orb_true_r.
    + rewrite andb_true_r. by intros ->.
  - change (drop_final_newline (String a (String b s)))
      with (String a (drop_final_newline (String b s))).
    change (all_digits (String a ?t)) with (is_digit a && all_digits t).
    intros [Ha Hs]%andb_true_iff.
    change (digits_or_newline (String a ?t))
      with ((is_digit a || Ascii.eqb a newline) && digits_or_newline t).
    by rewrite Ha, IH.
Qed.

Lemma not_p (a : ascii) :
  is_digit a || Ascii.eqb a newline = true → "p"%char ≠ a.
Proof. intros Ha <-. by vm_compute in Ha. Qed.

Lemma split_go_step (sep : string) (a : ascii) (s : string)
    (piece : list ascii) :
  split_go sep (String a s) O piece
  = if String.prefix sep (String a s)
    then String.string_of_list_ascii (rev piece)
           :: split_go sep s (String.length sep - 1) []
    else split_go sep s O (a :: piece).
Proof. reflexivity. Qed.

Lemma prefix_part_ne (a : ascii) (s : string) :
  "p"%char ≠ a → String.prefix "part" (String a s) = false.
Proof.
  intros Hne. cbn [String.prefix]. by destruct (ascii_dec "p" a).
Qed.

Lemma split_go_no_separator (s : string) (piece : list ascii) :
  digits_or_newline s = true →
  split_go "part" s O piece
  = [String.string_of_list_ascii
       (rev piece ++ String.list_ascii_of_string s)].
Proof.
  revert piece. induction s as [|a s IH]; intros piece.
  - simpl. by rewrite app_nil_r.
  - cbn [digits_or_newline]. intros [Ha Hs]%andb_true_iff.
    apply not_p in Ha.
    rewrite split_go_step, prefix_part_ne by done. rewrite IH by done.
    cbn [rev String.list_ascii_of_string]. by rewrite <- app_assoc.
Qed.

(** On a name the pattern accepts, the sort key is the number its digits
    write. *)
Lemma part_sort_key_match (x : string) :
  folder_pattern_match x = true →
  ∃ rest,
    x = String "p" (String "a" (String "r" (String "t" rest))) ∧
    part_sort_key x = Ok (digits_value 0 (drop_final_newline rest)).
Proof.
  unfold folder_pattern_match.
  destruct x as [|c1 x]; [done|].
  destruct c1 as [[] [] [] [] [] [] [] []]; try done.
  destruct x as [|c2 x]; [done|].
  destruct c2 as [[] [] [] [] [] [] [] []]; try done.
  destruct x as [|c3 x]; [done|].
  destruct c3 as [[] [] [] [] [] [] [] []]; try done.
  destruct x as [|c4 rest]; [done|].
  destruct c4 as [[] [] [] [] [] [] [] []]; try done.
  intros Hm. exists rest. split; [done|].
  pose proof Hm as [Hd _]%andb_true_iff.
  apply all_digits_drop_final_newline in Hd.
  unfold part_sort_key, split. simpl.
  rewrite split_go_no_separator by done. simpl.
  rewrite String.string_of_list_ascii_of_string.
  assert (String.prefix "" rest = true) as -> by (by destruct rest).
  rewrite list_get_1. simpl. unfold int_of_str. by rewrite Hm.
Qed.

Lemma mapR_total {A B} (f : A → result B) (g : A → B) (l : list A) :
  Forall (λ x, f x = Ok (g x)) l → mapR f l = Ok (g <$> l).
Proof.
  induction 1 as [|x l Hx _ IH]; simpl; [done|]. by rewrite Hx, IH.
Qed.

Definition key_le (a b : Z * string) : Prop := a.1 ≤ b.1.

Lemma insert_by_key_perm (kx : Z * string) (l : list (Z * string)) :
  insert_by_key kx l ≡ₚ kx :: l.
Proof.
  induction l as [|ky l IH]; simpl; [done|].
  destruct (kx.1 <=? ky.1); [done|]. rewrite IH. apply Permutation_swap.
Qed.

Lemma insert_by_key_sorted (kx : Z * string) (l : list (Z * string)) :
  StronglySorted key_le l → StronglySorted key_le (insert_by_key kx l).
Proof.
  induction 1 as [|ky l Hs IH Hall]; simpl.
  - repeat constructor.
  - destruct (kx.1 <=? ky.1) eqn:E.
    + apply Z.leb_le in E. constructor; [by constructor|].
      constructor; [done|].
      eapply Forall_impl; [exact Hall|]. unfold key_le. intros z Hz. lia.
    + apply Z.leb_gt in E. constructor; [done|].
      rewrite insert_by_key_perm. constructor; [|done].
      unfold key_le. lia.
Qed.

Lemma sort_by_key_perm (l : list (Z * string)) : sort_by_key l ≡ₚ l.
Proof.
  unfold sort_by_key. induction l as [|kx l IH]; simpl; [done|].
  by rewrite insert_by_key_perm, IH.
Qed.

Lemma sort_by_key_sorted (l : list (Z * string)) :
  StronglySorted key_le (sort_by_key l).
Proof.
  unfold sort_by_key. induction l as [|kx l IH]; simpl; [constructor|].
  by apply insert_by_key_sorted.
Qed.

(** The computation of the partition directories never raises.  Its
    result is a rearrangement of the listed directories whose name is
    [part] followed by digits, in non-decreasing order of the number those
    digits write (not of the names as strings). *)
Theorem part_files_sorted (listing : list (string * bool)) :
  ∃ keyed : list (Z * string),
    part_files listing = Ok keyed.*2 ∧
    StronglySorted key_le keyed ∧
    keyed.*2 ≡ₚ
      (filter (λ e : string * bool, e.2 && folder_pattern_match e.1 = true)
              listing).*1 ∧
    Forall (λ kx, folder_pattern_match kx.2 = true ∧
                  part_sort_key kx.2 = Ok kx.1) keyed.
Proof.
  unfold part_files.
  set (dirs := (filter _ listing).*1).
  set (key := λ x : string,
         match part_sort_key x with Ok k => k | Raise _ => 0 end).
  assert (Forall (λ x, folder_pattern_match x = true) dirs) as Hdirs.
  { subst dirs. apply Forall_fmap, Forall_forall.
    intros [x b] [Hx _]%list_elem_of_filter. simpl in *.
    by apply andb_true_iff in Hx as [_ ?]. }
  assert (Forall (λ x, part_sort_key x = Ok (key x)) dirs) as Hkeys.
  { eapply Forall_impl; [exact Hdirs|]. intros x Hx. subst key. simpl.
    destruct (part_sort_key_match x Hx) as (rest & _ & ->). done. }
  rewrite (mapR_total _ (λ x, (key x, x))).
  2:{ eapply Forall_impl; [exact Hkeys|]. intros x Hx. simpl.
      by rewrite Hx. }
  simpl. eexists. split; [done|]. split; [apply sort_by_key_sorted|].
  split.
  - rewrite sort_by_key_perm, <- list_fmap_compose.
    by rewrite list_fmap_id.
  - rewrite sort_by_key_perm. apply Forall_fmap, Forall_forall.
    intros x Hx. simpl. rewrite Forall_forall in Hdirs, Hkeys. auto.
Qed.

End PartitionDirectories.

(** ** What a conversion may change *)

Section OnlyAdds.
Context `{Ext : External}.

(** [w'] is [w] after conversions of keys among [ks]: metadata entries
    outside [ks] are the same, no metadata entry and no shard file has
    gone, the log has only grown, by writes of keys in [ks]. *)
Definition grows (ks : list string) (w w' : World) : Prop :=
  (∀ k, k ∉ ks → metadata w' !! k = metadata w !! k) ∧
  (∀ k, is_Some (metadata w !! k) → is_Some (metadata w' !! k)) ∧
  shard_log w `prefix_of` shard_log w' ∧
  (∀ p, is_Some (wg_files w !! p) → is_Some (wg_files w' !! p)) ∧
  (∀ sw, sw ∈ shard_log w' → sw ∈ shard_log w ∨ sw_feat sw ∈ ks).

Lemma grows_refl (ks : list string) (w : World) : grows ks w w.
Proof. repeat split; try done. intros sw Hsw. by left. Qed.

Lemma grows_trans (ks : list string) (w1 w2 w3 : World) :
  grows ks w1 w2 → grows ks w2 w3 → grows ks w1 w3.
Proof.
  intros (Hm1 & Hd1 & Hl1 & Hf1 & Hs1) (Hm2 & Hd2 & Hl2 & Hf2 & Hs2).
  repeat split.
  - intros k Hk. by rewrite Hm2, Hm1.
  - auto.
  - by etrans.
  - auto.
  - intros sw Hsw. destruct (Hs2 sw Hsw) as [Hin|Hin]; [auto|by right].
Qed.

Lemma same_outputs_grows (ks : list string) (w w' : World) :
  same_outputs w w' → grows ks w w'.
Proof.
  intros (Hm & Hf & Hl). unfold grows. rewrite Hm, Hf, Hl.
  repeat split; try done. intros sw Hsw. by left.
Qed.

Lemma wholegraph_processing_logs_only (whole : Tensor) (f wg : string)
    (n : Z) (w : World) :
  logs_only f w (wholegraph_processing whole f wg n w).1.
Proof.
  unfold wholegraph_processing, bindM, liftR. simpl.
  destruct get_local_device_communicator as [comm|]; simpl; [|by left].
  destruct (list_get (tensor_shape whole) 0) as [rows|]; simpl; [|by left].
  destruct (floordiv rows (- n)) as [q|]; simpl; [|by left].
  apply (logs_only_trans f _ (set_metadata f (whole_meta whole) w).1);
    [by left|].
  apply (for_each_rel (logs_only f) (logs_only_refl f) (logs_only_trans f)).
  intros j s. apply write_shard_logs_only.
Qed.

Lemma wholegraph_processing_grows (ks : list string) (whole : Tensor)
    (f wg : string) (n : Z) (w : World) :
  f ∈ ks → grows ks w (wholegraph_processing whole f wg n w).1.
Proof.
  intros Hf.
  destruct (wholegraph_processing_more whole f wg n w)
    as (_ & _ & Hl & Hfiles).
  pose proof (wholegraph_processing_metadata whole f wg n w) as Hm.
  pose proof (wholegraph_processing_logs_only whole f wg n w) as Hlog.
  repeat split.
  - intros k Hk. rewrite Hm. rewrite lookup_insert_ne; [done|].
    intros ->. done.
  - intros k Hk. rewrite Hm. destruct (decide (f = k)) as [->|Hne].
    + rewrite lookup_insert_eq. by eexists.
    + by rewrite lookup_insert_ne.
  - exact Hl.
  - exact Hfiles.
  - intros sw Hsw. destruct (Hlog sw Hsw) as [Hin| ->]; [by left|by right].
Qed.

Lemma high_loop_grows (ks : list string) (wg : string) (n : Z)
    (l : list string) :
  (∀ f, f ∈ l → f ∈ ks) →
  ∀ (fd : list (dict Tensor)) (w : World),
    grows ks w (for_fold l (convert_feature_high wg n) fd w).1.
Proof.
  induction l as [|f l IH]; intros Hl fd w; [apply grows_refl|].
  simpl. unfold bindM. rewrite convert_feature_high_unfold.
  destruct (gather_high f fd) as [whole|]; [|apply grows_refl].
  destruct (mapR _ fd) as [fd'|]; [|apply grows_refl].
  pose proof (wholegraph_processing_grows ks whole f wg n w) as Hg.
  destruct (wholegraph_processing whole f wg n w) as [w' [[]|e]];
    simpl in *.
  - eapply grows_trans; [apply Hg, Hl; left|].
    apply IH. intros f' Hf'. apply Hl. by right.
  - apply Hg, Hl. left.
Qed.

Lemma read_loop_same (folder file_name feat : string) (names : list string)
    (st : option Tensor * Z) (w : World) :
  (for_fold names (read_feature_low folder file_name feat) st w).1 = w.
Proof.
  apply (for_fold_rel (λ s s' : World, s' = s)); [done|congruence|].
  intros v x s. apply read_feature_low_same.
Qed.

Lemma low_loop_grows (ks : list string) (wg folder file_name : string)
    (names l : list string) :
  (∀ f, f ∈ l → f ∈ ks) →
  ∀ w : World,
    grows ks w
      (for_each l (convert_feature_low wg folder file_name names) w).1.
Proof.
  induction l as [|f l IH]; intros Hl w; [apply grows_refl|].
  simpl. unfold bindM. unfold convert_feature_low at 1. unfold bindM.
  pose proof (read_loop_same folder file_name f names (None, 0) w) as Hw.
  destruct (for_fold names _ (None, 0) w) as [w0 [[[whole|] m]|e]];
    simpl in Hw; subst w0; simpl; try apply grows_refl.
  pose proof (wholegraph_processing_grows ks whole f wg m w) as Hg.
  destruct (wholegraph_processing whole f wg m w) as [w' [[]|e]];
    simpl in *.
  - eapply grows_trans; [apply Hg, Hl; left|].
    apply IH. intros f' Hf'. apply Hl. by right.
  - apply Hg, Hl. left.
Qed.

(** Whatever the input and the outcome, on either path a conversion only
    adds: metadata entries of keys that were not requested are unchanged,
    no metadata entry and no shard file is removed, and every shard write
    it logs is a write of a requested key. *)
Theorem convert_only_adds (fname_dict : dict (list string))
    (file_name folder : string) (use_low_mem : bool)
    (listing : list (string * bool)) (w : World) :
  (∀ k, k ∉ requested_keys fname_dict →
     metadata (convert_feat_to_wholegraph fname_dict file_name folder
                 use_low_mem listing w).1 !! k = metadata w !! k) ∧
  (∀ k, is_Some (metadata w !! k) →
     is_Some (metadata (convert_feat_to_wholegraph fname_dict file_name folder
                          use_low_mem listing w).1 !! k)) ∧
  (∀ p, is_Some (wg_files w !! p) →
     is_Some (wg_files (convert_feat_to_wholegraph fname_dict file_name folder
                          use_low_mem listing w).1 !! p)) ∧
  (∀ sw,
     sw ∈ shard_log (convert_feat_to_wholegraph fname_dict file_name folder
                       use_low_mem listing w).1 →
     sw ∈ shard_log w ∨ sw_feat sw ∈ requested_keys fname_dict).
Proof.
  assert (grows (requested_keys fname_dict) w
            (convert_feat_to_wholegraph fname_dict file_name folder
               use_low_mem listing w).1) as (Hm & Hd & _ & Hf & Hs);
    [|done].
  unfold convert_feat_to_wholegraph, bindM, liftR.
  destruct (part_files listing) as [names|]; simpl; [|apply grows_refl].
  destruct use_low_mem; simpl.
  - eapply grows_trans; [|apply same_outputs_grows, convert_low_outputs].
    by apply low_loop_grows.
  - destruct (load_all folder file_name (part_fs w) names) as [ds|e] eqn:El.
    + eapply grows_trans;
        [|apply same_outputs_grows, (convert_high_outputs _ _ _ _ ds), El].
      by apply high_loop_grows.
    + rewrite (convert_high_not_loaded _ _ _ _ e) by done. apply grows_refl.
Qed.

(** When a partition file that loads lacks a requested key, the call
    raises before any trimming: every partition feature file is as it was,
    on either path. *)
Theorem missing_key_keeps_partition_files (fname_dict : dict (list string))
    (file_name folder : string) (use_low_mem : bool)
    (listing : list (string * bool)) (names : list string) (w : World)
    (feat name : string) (d : dict Tensor) :
  part_files listing = Ok names →
  feat ∈ requested_keys fname_dict →
  name ∈ names →
  part_fs w !! feat_file_path folder file_name name = Some d →
  dict_mem feat d = false →
  part_fs (convert_feat_to_wholegraph fname_dict file_name folder use_low_mem
             listing w).1 = part_fs w.
Proof.
  intros Hpf Hreq Hname Hd Hmem.
  unfold convert_feat_to_wholegraph, bindM, liftR. rewrite Hpf.
  assert (∀ l w0, same_part_fs w0
            (for_each l (convert_feature_low (path_join folder "wholegraph")
                           folder file_name names) w0).1) as Hlow.
  { intros l w0.
    apply (for_each_rel same_part_fs same_part_fs_refl same_part_fs_trans).
    intros x s. apply convert_feature_low_part_fs. }
  destruct use_low_mem; simpl.
  - unfold convert_low, bindM.
    pose proof (Hlow (requested_keys fname_dict) w) as Hl.
    destruct (for_each _ _ w) as [w1 [[]|e]]; simpl in *; [|done].
    unfold bindM.
    pose proof (final_pass_outputs folder file_name fname_dict names 0 w1)
      as _.
    assert (∀ l n w2,
      (for_fold l (trim_partition_low fname_dict folder file_name) n w2).1
      = w2) as Hfinal.
    { intros l n w2.
      apply (for_fold_rel (λ s s' : World, s' = s)); [done|congruence|].
      intros v x s.
      by destruct (trim_partition_low_raises fname_dict folder file_name
                     v x s) as [-> _]. }
    specialize (Hfinal names 0 w1).
    destruct (for_fold names _ 0 w1) as [w2 [n|e]]; simpl in *; by subst w2.
  - destruct (load_all folder file_name (part_fs w) names) as [ds|e] eqn:El.
    + assert (find_all feat ds = None) as Hnone.
      { eapply find_all_lacking; [|done]. by eapply load_all_elem. }
      destruct (high_loop_missing feat (path_join folder "wholegraph")
                  (Z.of_nat (length ds)) (requested_keys fname_dict) ds w
                  Hnone) as [_ Hr].
      specialize (Hr Hreq).
      rewrite (convert_high_loaded _ _ _ _ ds) by done. unfold bindM.
      assert (same_part_fs w
                (for_fold (requested_keys fname_dict)
                   (convert_feature_high (path_join folder "wholegraph")
                      (Z.of_nat (length ds))) ds w).1) as Hfs.
      { apply (for_fold_rel same_part_fs same_part_fs_refl
                 same_part_fs_trans).
        intros fd f s. rewrite convert_feature_high_unfold.
        destruct (gather_high f fd) as [whole|]; [|done].
        destruct (mapR _ fd); [|done].
        apply wholegraph_processing_part_fs. }
      destruct (for_fold _ _ ds w) as [w1 [fd|e]]; simpl in *;
        [discriminate|done].
    + by rewrite (convert_high_not_loaded _ _ _ _ e).
Qed.

End OnlyAdds.

Section OnlyAddsExample.
#[local] Existing Instance Toy.plain.

Lemma missing_key_keeps_partition_files_witness :
  part_fs (convert_feat_to_wholegraph [("node", ["y"; "x"])] "node_feat.dgl"
             "data" false two_part_dirs x_missing_in_part1).1
  = part_fs x_missing_in_part1.
Proof.
  apply (missing_key_keeps_partition_files (Ext := Toy.plain)
           [("node", ["y"; "x"])] "node_feat.dgl" "data" false two_part_dirs
           ["part0"; "part1"] x_missing_in_part1 "node/x" "part1" only_y).
  - reflexivity.
  - apply (bool_decide_unpack _). by vm_compute.
  - apply (bool_decide_unpack _). by vm_compute.
  - reflexivity.
  - reflexivity.
Defined.

End OnlyAddsExample.

Section CanonicalKeyExample.

Lemma canonical_key_no_slash_witness :
  replace_char "/" "~" "feat" = "feat"%string.
Proof.
  destruct (canonical_key_no_slash "feat") as (_ & _ & Hsame).
  apply Hsame. apply (bool_decide_unpack _). by vm_compute.
Defined.

End CanonicalKeyExample.
